(** * QuizSession: the state machine of [src/app/page.tsx]

    The component [Home] owns nine pieces of React state and five event
    handlers.  Two of the handlers ([handleGenerateQuestions] and
    [handleSubmitAnswer]) suspend on an [await]; the upload handler
    suspends on two [FileReader] callbacks.  Every handler is a closure
    over the state of the render in which it was created, so the code that
    runs after a suspension still sees the arrays of that earlier render.

    The embedding keeps this structure: each handler is split at its
    suspension points into a synchronous part that returns the values the
    closure captured, and a resumption that receives the current state, the
    captured values and the outcome delivered by the environment. *)

From Stdlib Require Import List String Ascii Bool ZArith NArith QArith Lia.
From Stdlib Require Import Strings.Byte.
Import ListNotations.

#[local] Open Scope Z_scope.
#[local] Open Scope list_scope.

(** ** JavaScript values and builtins used by the component *)

Module Js.

(** A JavaScript array whose slots may be [undefined] (a hole left by an
    out-of-range write reads as [undefined] too). *)
Definition array (A : Type) : Type := list (option A).

(** [arr[i]]: the value of the slot, [None] for [undefined]. *)
Definition get {A : Type} (arr : array A) (i : nat) : option A :=
  match nth_error arr i with
  | Some slot => slot
  | None => None
  end.

(** [arr[i] = v]: in range the slot is replaced, past the end the array
    grows and the slots in between are holes. *)
Fixpoint set {A : Type} (arr : array A) (i : nat) (v : A) : array A :=
  match i, arr with
  | O, [] => [Some v]
  | O, _ :: rest => Some v :: rest
  | S j, [] => None :: set [] j v
  | S j, slot :: rest => slot :: set rest j v
  end.

(** [Array(n).fill(v)]. *)
Definition fill {A : Type} (n : nat) (v : A) : array A := repeat (Some v) n.

(** [!s] on a string that may be [null] or [undefined]. *)
Definition falsy_string (s : option string) : bool :=
  match s with
  | None => true
  | Some EmptyString => true
  | Some _ => false
  end.

(** [s.includes(sub)]. *)
Fixpoint includes (s sub : string) : bool :=
  String.prefix sub s
  || match s with
     | EmptyString => false
     | String _ rest => includes rest sub
     end.

(** White space in the sense of [parseInt] and [trim], restricted to the
    one-byte characters: TAB, LF, VT, FF, CR and SPACE. *)
Definition is_white_space (c : ascii) : bool :=
  let n := N_of_ascii c in
  ((9 <=? n) && (n <=? 13) || (n =? 32))%N.

Fixpoint trim_start (s : string) : string :=
  match s with
  | String c rest => if is_white_space c then trim_start rest else s
  | EmptyString => EmptyString
  end.

(** The value of [c] as a digit, when it is an alphanumeric digit at all. *)
Definition digit_value (c : ascii) : option Z :=
  let n := Z.of_N (N_of_ascii c) in
  if (48 <=? n) && (n <=? 57) then Some (n - 48)
  else if (97 <=? n) && (n <=? 102) then Some (n - 87)
  else if (65 <=? n) && (n <=? 70) then Some (n - 55)
  else None.

(** The longest prefix of [s] made of digits of radix [r], read as an
    integer on top of [acc]; [seen] tells whether a digit was consumed. *)
Fixpoint read_digits (r : Z) (s : string) (seen : bool) (acc : Z) : option Z :=
  match s with
  | String c rest =>
      match digit_value c with
      | Some d => if d <? r then read_digits r rest true (acc * r + d)
                  else if seen then Some acc else None
      | None => if seen then Some acc else None
      end
  | EmptyString => if seen then Some acc else None
  end.

(** [parseInt(s)] with no radix argument; [None] is [NaN].  The sign is
    applied to the magnitude, an [0x] or [0X] prefix selects radix 16.
    The result is the mathematical integer: a magnitude beyond 2^53 is
    rounded by the engine to a double (or to Infinity) that is still
    greater than every bound the component compares it with. *)
Definition parseInt (s : string) : option Z :=
  let s1 := trim_start s in
  let '(sign, s2) :=
    match s1 with
    | String "-" rest => (-1, rest)
    | String "+" rest => (1, rest)
    | _ => (1, s1)
    end in
  let '(radix, s3) :=
    match s2 with
    | String "0" (String "x" rest) => (16, rest)
    | String "0" (String "X" rest) => (16, rest)
    | _ => (10, s2)
    end in
  option_map (Z.mul sign) (read_digits radix s3 false 0).

(** [x || 1] on a number that may be [NaN]: both [NaN] and zero are falsy. *)
Definition or_one (x : option Z) : Z :=
  match x with
  | Some 0 => 1
  | Some z => z
  | None => 1
  end.

Definition hex_digit (d : N) : ascii :=
  ascii_of_N (if (d <? 10)%N then 48 + d else 87 + d).

Fixpoint toString16_loop (fuel : nat) (n : N) (acc : string) : string :=
  match fuel with
  | O => acc
  | S fuel' =>
      let acc' := String (hex_digit (n mod 16)) acc in
      if (n / 16 =? 0)%N then acc' else toString16_loop fuel' (n / 16)%N acc'
  end.

(** [n.toString(16)] for a non-negative integer: lower-case digits, no
    padding, ["0"] for zero. *)
Definition toString16 (n : N) : string :=
  toString16_loop (S (N.to_nat (N.log2 n))) n EmptyString.

(** The values a field of a parsed JSON response may hold, as far as
    [typeof] and [===] distinguish them here. *)
Inductive value : Type :=
| Undefined
| Null
| NaN
| Num (q : Q)
| Str (s : string).

(** [typeof v === 'number']. *)
Definition is_number (v : value) : bool :=
  match v with
  | NaN | Num _ => true
  | _ => false
  end.

(** [v === 1]. *)
Definition is_one (v : value) : bool :=
  match v with
  | Num q => Qeq_bool q 1
  | _ => false
  end.

End Js.


#[local] Open Scope string_scope.

(** ** The data of a session *)

(** [GenerateQuestionnaireOutput['questions'][number]].  The render code
    checks at run time that [options] is an array of four entries, so the
    field may be missing or not an array ([None]). *)
Record Question : Type := {
  question : string;
  options : option (list string);
  answer : string
}.

(** [EvaluateAnswerOutput], as received: [score] is whatever the service
    sent. *)
Record EvaluationResult : Type := {
  evaluation_score : Js.value
}.

(** The [useState] cells of [Home], and the value of the file input that
    [fileInputRef] points to.  A slot of [evaluationResults] holds [null]
    ([Some None]) or a result ([Some (Some r)]). *)
Record State : Type := {
  pdfContent : option string;
  questions : option (list Question);
  userAnswers : Js.array string;
  isPdfUploaded : bool;
  evaluationResults : Js.array (option EvaluationResult);
  questionCount : Z;
  score : Z;
  isLoading : bool;
  isEvaluating : Js.array bool;
  fileInputValue : string
}.

(** The state of the first render. *)
Definition initialState : State := {|
  pdfContent := None;
  questions := None;
  userAnswers := [];
  isPdfUploaded := false;
  evaluationResults := [];
  questionCount := 5;
  score := 0;
  isLoading := false;
  isEvaluating := [];
  fileInputValue := ""
|}.

(** *** The state setters *)

Definition setPdfContent (v : option string) (s : State) : State :=
  {| pdfContent := v; questions := questions s; userAnswers := userAnswers s;
     isPdfUploaded := isPdfUploaded s; evaluationResults := evaluationResults s;
     questionCount := questionCount s; score := score s; isLoading := isLoading s;
     isEvaluating := isEvaluating s; fileInputValue := fileInputValue s |}.

Definition setQuestions (v : option (list Question)) (s : State) : State :=
  {| pdfContent := pdfContent s; questions := v; userAnswers := userAnswers s;
     isPdfUploaded := isPdfUploaded s; evaluationResults := evaluationResults s;
     questionCount := questionCount s; score := score s; isLoading := isLoading s;
     isEvaluating := isEvaluating s; fileInputValue := fileInputValue s |}.

Definition setUserAnswers (v : Js.array string) (s : State) : State :=
  {| pdfContent := pdfContent s; questions := questions s; userAnswers := v;
     isPdfUploaded := isPdfUploaded s; evaluationResults := evaluationResults s;
     questionCount := questionCount s; score := score s; isLoading := isLoading s;
     isEvaluating := isEvaluating s; fileInputValue := fileInputValue s |}.

Definition setIsPdfUploaded (v : bool) (s : State) : State :=
  {| pdfContent := pdfContent s; questions := questions s; userAnswers := userAnswers s;
     isPdfUploaded := v; evaluationResults := evaluationResults s;
     questionCount := questionCount s; score := score s; isLoading := isLoading s;
     isEvaluating := isEvaluating s; fileInputValue := fileInputValue s |}.

Definition setEvaluationResults (v : Js.array (option EvaluationResult)) (s : State)
  : State :=
  {| pdfContent := pdfContent s; questions := questions s; userAnswers := userAnswers s;
     isPdfUploaded := isPdfUploaded s; evaluationResults := v;
     questionCount := questionCount s; score := score s; isLoading := isLoading s;
     isEvaluating := isEvaluating s; fileInputValue := fileInputValue s |}.

Definition setQuestionCount (v : Z) (s : State) : State :=
  {| pdfContent := pdfContent s; questions := questions s; userAnswers := userAnswers s;
     isPdfUploaded := isPdfUploaded s; evaluationResults := evaluationResults s;
     questionCount := v; score := score s; isLoading := isLoading s;
     isEvaluating := isEvaluating s; fileInputValue := fileInputValue s |}.

(** [setScore] takes an updater, as in [setScore((prevScore) => ...)]; the
    updater is applied to the score current when the update is processed. *)
Definition setScore (f : Z -> Z) (s : State) : State :=
  {| pdfContent := pdfContent s; questions := questions s; userAnswers := userAnswers s;
     isPdfUploaded := isPdfUploaded s; evaluationResults := evaluationResults s;
     questionCount := questionCount s; score := f (score s); isLoading := isLoading s;
     isEvaluating := isEvaluating s; fileInputValue := fileInputValue s |}.

Definition setIsLoading (v : bool) (s : State) : State :=
  {| pdfContent := pdfContent s; questions := questions s; userAnswers := userAnswers s;
     isPdfUploaded := isPdfUploaded s; evaluationResults := evaluationResults s;
     questionCount := questionCount s; score := score s; isLoading := v;
     isEvaluating := isEvaluating s; fileInputValue := fileInputValue s |}.

Definition setIsEvaluating (v : Js.array bool) (s : State) : State :=
  {| pdfContent := pdfContent s; questions := questions s; userAnswers := userAnswers s;
     isPdfUploaded := isPdfUploaded s; evaluationResults := evaluationResults s;
     questionCount := questionCount s; score := score s; isLoading := isLoading s;
     isEvaluating := v; fileInputValue := fileInputValue s |}.

Definition setFileInputValue (v : string) (s : State) : State :=
  {| pdfContent := pdfContent s; questions := questions s; userAnswers := userAnswers s;
     isPdfUploaded := isPdfUploaded s; evaluationResults := evaluationResults s;
     questionCount := questionCount s; score := score s; isLoading := isLoading s;
     isEvaluating := isEvaluating s; fileInputValue := v |}.

(** ** The handlers *)

(** [handleClear] (lines 204-219).  [console.log] output is not modelled,
    here or below. *)
Definition handleClear (s : State) : State :=
  let s := setPdfContent None s in
  let s := setQuestions None s in
  let s := setUserAnswers [] s in
  let s := setIsPdfUploaded false s in
  let s := setEvaluationResults [] s in
  let s := setScore (fun _ => 0) s in
  let s := setIsLoading false s in
  let s := setIsEvaluating [] s in
  setFileInputValue "" s.

(** *** File intake (lines 29-88) *)

(** The synchronous part of [handleFileUpload] for a chosen file: the
    downstream state is dropped and [reader.readAsArrayBuffer] starts.
    With no file ([event.target.files] empty) the handler returns at once;
    the caller passes the file only when there is one. *)
Definition handleFileUpload (s : State) : State :=
  let s := setIsLoading true s in
  let s := setPdfContent None s in
  let s := setQuestions None s in
  let s := setUserAnswers [] s in
  let s := setEvaluationResults [] s in
  let s := setScore (fun _ => 0) s in
  setIsPdfUploaded false s.

(** The loop of lines 45-49: the hexadecimal forms of the first four bytes
    (fewer when the file is shorter), concatenated without padding. *)
Definition header (buffer : list byte) : string :=
  fold_left (fun h b => h ++ Js.toString16 (Byte.to_N b)) (firstn 4 buffer) "".

(** What [reader.onload] decides: the state after it and the alerts shown,
    and whether [textReader.readAsText] was started. *)
Definition reader_onload (s : State) (buffer : list byte)
  : State * list string * bool :=
  if String.eqb (header buffer) "25504446" then (s, [], true)
  else (handleClear s, ["This does not appear to be a valid PDF file."], false).

Definition reader_onerror (s : State) : State * list string :=
  (handleClear s, ["Error reading PDF file."]).

(** [textReader.onload]; the short-content test only writes a console
    warning. *)
Definition textReader_onload (s : State) (content : string) : State :=
  let s := setPdfContent (Some content) s in
  let s := setIsPdfUploaded true s in
  setIsLoading false s.

Definition textReader_onerror (s : State) : State * list string :=
  (handleClear s, ["Error reading PDF file as text."]).

(** *** Question generation (lines 90-125) *)

(** The argument of [generateQuestionnaire]. *)
Record GenerateInput : Type := {
  gen_pdfContent : string;
  gen_questionCount : Z
}.

(** What the awaited call delivers: a rejection with the message that the
    [catch] block extracts from it, or the resolved value, which may be
    nullish or lack its [questions]. *)
Inductive GenerateOutcome : Type :=
| GenerateRejected (errorMessage : string)
| GenerateResolved (questionnaire : option (option (list Question))).

(** [errorMessage.includes("429") || ...] of both [catch] blocks. *)
Definition isRateLimit (errorMessage : string) : bool :=
  Js.includes errorMessage "429"
  || Js.includes errorMessage "Too Many Requests"
  || Js.includes errorMessage "QuotaFailure".

(** Up to the [await]: [None] when [pdfContent] is falsy and the handler
    returns at once. *)
Definition handleGenerateQuestions_start (s : State)
  : State * option GenerateInput :=
  match pdfContent s with
  | None | Some "" => (s, None)
  | Some content =>
      let input := {| gen_pdfContent := content;
                      gen_questionCount := questionCount s |} in
      let s := setIsLoading true s in
      let s := setQuestions None s in
      let s := setUserAnswers [] s in
      let s := setEvaluationResults [] s in
      let s := setScore (fun _ => 0) s in
      (s, Some input)
  end.

(** The rest of the [try] block: the new state, or the message of the
    error thrown. *)
Definition generate_try (s : State) (outcome : GenerateOutcome) : State + string :=
  match outcome with
  | GenerateRejected errorMessage => inr errorMessage
  | GenerateResolved (Some (Some (q :: qs))) =>
      let n := List.length (q :: qs) in
      let s := setQuestions (Some (q :: qs)) s in
      let s := setUserAnswers (Js.fill n "") s in
      let s := setEvaluationResults (Js.fill n None) s in
      let s := setIsEvaluating (Js.fill n false) s in
      inl (setScore (fun _ => 0) s)
  | GenerateResolved _ =>
      inr "No questions were generated. The PDF might be empty, contain only images, or the content might not be suitable for question generation."
  end.

Definition generate_catch (s : State) (errorMessage : string) : State * list string :=
  (setQuestions None s,
   [if isRateLimit errorMessage
    then "API rate limit exceeded while generating questions. Please wait a moment and try again, or reduce the number of questions. Check your Google AI plan for details."
    else "Failed to generate questions: " ++ errorMessage ++ ". Please try again."]).

(** After the [await]: [try], [catch] and [finally] in turn. *)
Definition handleGenerateQuestions_resume (s : State) (outcome : GenerateOutcome)
  : State * list string :=
  let '(s, alerts) :=
    match generate_try s outcome with
    | inl s' => (s', [])
    | inr errorMessage => generate_catch s errorMessage
    end in
  (setIsLoading false s, alerts).

(** *** Answer collection (lines 127-131) *)

Definition handleAnswerChange (s : State) (index : nat) (answer : string) : State :=
  let newUserAnswers := Js.set (userAnswers s) index answer in
  setUserAnswers newUserAnswers s.

(** *** Answer evaluation (lines 133-195) *)

Record EvaluationInput : Type := {
  ev_question : string;
  ev_userAnswer : string;
  ev_correctAnswer : string;
  ev_pdfContent : string
}.

(** What the code after the [await] still refers to: the index, and the
    [evaluationResults] and [isEvaluating] of the render in which the
    handler was created. *)
Record SubmitClosure : Type := {
  closure_index : nat;
  closure_input : EvaluationInput;
  closure_evaluationResults : Js.array (option EvaluationResult);
  closure_isEvaluating : Js.array bool
}.

(** What the awaited [evaluateAnswer] delivers: a rejection, or a value
    that may be nullish. *)
Inductive EvaluateOutcome : Type :=
| EvaluateRejected (errorMessage : string)
| EvaluateResolved (evaluation : option EvaluationResult).

(** [evaluation?.score]. *)
Definition optional_score (evaluation : option EvaluationResult) : Js.value :=
  match evaluation with
  | Some e => evaluation_score e
  | None => Js.Undefined
  end.

(** Up to the [await]: [None] when a precondition fails. *)
Definition handleSubmitAnswer_start (s : State) (index : nat)
  : State * option SubmitClosure :=
  match pdfContent s, questions s, Js.get (userAnswers s) index with
  | Some (String c content), Some qs, Some (String a userAnswer) =>
      match nth_error qs index with
      | Some q =>
          let newIsEvaluating := Js.set (isEvaluating s) index true in
          let closure := {|
            closure_index := index;
            closure_input := {| ev_question := question q;
                                ev_userAnswer := String a userAnswer;
                                ev_correctAnswer := answer q;
                                ev_pdfContent := String c content |};
            closure_evaluationResults := evaluationResults s;
            closure_isEvaluating := isEvaluating s |} in
          (setIsEvaluating newIsEvaluating s, Some closure)
      | None => (s, None)
      end
  | _, _, _ => (s, None)
  end.

(** The [try] block after the [await].  [JSON.stringify] of the rejected
    value is not modelled: the thrown message keeps its fixed part. *)
Definition submit_try (s : State) (c : SubmitClosure) (outcome : EvaluateOutcome)
  : State + string :=
  match outcome with
  | EvaluateRejected errorMessage => inr errorMessage
  | EvaluateResolved evaluation =>
      if negb (Js.is_number (optional_score evaluation))
      then inr "Invalid evaluation response received: "
      else
        let newEvaluationResults :=
          Js.set (closure_evaluationResults c) (closure_index c) evaluation in
        let s := setEvaluationResults newEvaluationResults s in
        if Js.is_one (optional_score evaluation)
        then inl (setScore (fun prevScore => prevScore + 1) s)
        else inl s
  end.

Definition submit_catch (s : State) (errorMessage : string) : State * list string :=
  (s,
   [if isRateLimit errorMessage
    then "API rate limit exceeded while evaluating answer. Please wait a moment and try again. Check your Google AI plan for details."
    else "Failed to evaluate answer: " ++ errorMessage ++ ". Please check the console for details."]).

Definition submit_finally (s : State) (c : SubmitClosure) : State :=
  let finalIsEvaluating := Js.set (closure_isEvaluating c) (closure_index c) false in
  setIsEvaluating finalIsEvaluating s.

(** After the [await]: [s] is the state current at that time, [c] what the
    closure captured at submission. *)
Definition handleSubmitAnswer_resume (s : State) (c : SubmitClosure)
    (outcome : EvaluateOutcome) : State * list string :=
  let '(s, alerts) :=
    match submit_try s c outcome with
    | inl s' => (s', [])
    | inr errorMessage => submit_catch s errorMessage
    end in
  (submit_finally s c, alerts).

(** *** Completion (lines 198-202) *)

(** [result !== null] on a slot: an [undefined] slot passes. *)
Definition not_null {A : Type} (slot : option (option A)) : bool :=
  match slot with
  | Some None => false
  | _ => true
  end.

(** [every] visits the slots of [evaluationResults]; a hole is skipped and
    an [undefined] slot passes the test, so both count as passing. *)
Definition allAnswersEvaluated (s : State) : bool :=
  match questions s with
  | None | Some [] => false
  | Some _ => forallb not_null (evaluationResults s)
  end.

(** *** The question-count field (line 247) *)

Definition questionCount_onChange (s : State) (value : string) : State :=
  setQuestionCount (Z.max 1 (Z.min 20 (Js.or_one (Js.parseInt value)))) s.

(** ** The rendered controls (lines 222-359)

    A handler runs only when the control it is attached to is rendered and
    not disabled. *)

Module Ui.

(** [isEvaluating[index]] as a condition. *)
Definition evaluating (s : State) (index : nat) : bool :=
  match Js.get (isEvaluating s) index with
  | Some b => b
  | None => false
  end.

(** Line 277: the options are missing, not an array, or not four. *)
Definition options_invalid (q : Question) : bool :=
  match options q with
  | Some opts => negb (Nat.eqb (List.length opts) 4)
  | None => true
  end.

(** Line 236. *)
Definition file_input_disabled (s : State) : bool := isLoading s.

(** Line 251. *)
Definition count_input_disabled (s : State) : bool :=
  isLoading s || match questions s with Some _ => true | None => false end.

(** Line 255. *)
Definition generate_disabled (s : State) : bool :=
  negb (isPdfUploaded s) || isLoading s.

(** Lines 258-259: the Clear button is there and can be pressed. *)
Definition clear_enabled (s : State) : bool :=
  (isPdfUploaded s || match questions s with Some _ => true | None => false end)
  && negb (isLoading s).

(** Line 284. *)
Definition radio_disabled (s : State) (index : nat) : bool :=
  not_null (Js.get (evaluationResults s) index) || evaluating s index.

(** Line 299. *)
Definition submit_disabled (s : State) (index : nat) (q : Question) : bool :=
  Js.falsy_string (Js.get (userAnswers s) index)
  || not_null (Js.get (evaluationResults s) index)
  || evaluating s index
  || options_invalid q.

(** The card of question [index] (line 269), when it is rendered. *)
Definition card (s : State) (index : nat) : option Question :=
  match questions s with
  | Some qs => nth_error qs index
  | None => None
  end.

(** The radio group of card [index] offers [value] and accepts a click. *)
Definition radio_enabled (s : State) (index : nat) (value : string) : bool :=
  match card s index with
  | Some q =>
      negb (options_invalid q)
      && existsb (String.eqb value) (match options q with Some o => o | None => [] end)
      && negb (radio_disabled s index)
  | None => false
  end.

(** The submit button of card [index] accepts a click. *)
Definition submit_enabled (s : State) (index : nat) : bool :=
  match card s index with
  | Some q => negb (submit_disabled s index q)
  | None => false
  end.

(** Lines 340 and 352: the summary card with Start New Quiz is shown. *)
Definition summary_shown (s : State) : bool :=
  match questions s with
  | Some (_ :: _) => allAnswersEvaluated s
  | _ => false
  end.

End Ui.

(** [selectAnswer(index, value)]: a click on an option of card [index];
    nothing happens on a radio group that is absent or disabled. *)
Definition selectAnswer (s : State) (index : nat) (value : string) : State :=
  if Ui.radio_enabled s index value then handleAnswerChange s index value else s.

(** ** The running component

    Besides the state, the suspended computations with what they captured,
    and the alerts shown so far (latest last). *)

Inductive Pending : Type :=
| ReadingBuffer
| ReadingText
| Generating (input : GenerateInput)
| Evaluating (closure : SubmitClosure).

Record World : Type := {
  state : State;
  pending : list Pending;
  alerts : list string
}.

Definition initialWorld : World :=
  {| state := initialState; pending := []; alerts := [] |}.

(** What the user and the environment can do.  [Settle k r] completes the
    [k]-th suspended computation with the outcome [r]. *)
Inductive Settlement : Type :=
| BufferLoaded (buffer : list byte)
| BufferFailed
| TextLoaded (content : string)
| TextFailed
| Generated (outcome : GenerateOutcome)
| Evaluated (outcome : EvaluateOutcome).

Inductive Event : Type :=
| ChooseFile (path : string)
| TypeQuestionCount (value : string)
| ClickGenerate
| ClickClear
| ClickStartNewQuiz
| SelectOption (index : nat) (value : string)
| ClickSubmit (index : nat)
| Settle (k : nat) (r : Settlement).

(** The list without its [k]-th entry. *)
Fixpoint remove_nth {A : Type} (k : nat) (l : list A) : list A :=
  match k, l with
  | _, [] => []
  | O, _ :: rest => rest
  | S j, x :: rest => x :: remove_nth j rest
  end.

Definition settle (w : World) (k : nat) (r : Settlement) : option World :=
  let s := state w in
  let others := remove_nth k (pending w) in
  match nth_error (pending w) k, r with
  | Some ReadingBuffer, BufferLoaded buffer =>
      let '(s', shown, reading) := reader_onload s buffer in
      Some {| state := s';
              pending := if reading then (others ++ [ReadingText])%list else others;
              alerts := (alerts w ++ shown)%list |}
  | Some ReadingBuffer, BufferFailed =>
      let '(s', shown) := reader_onerror s in
      Some {| state := s'; pending := others; alerts := (alerts w ++ shown)%list |}
  | Some ReadingText, TextLoaded content =>
      Some {| state := textReader_onload s content; pending := others;
              alerts := alerts w |}
  | Some ReadingText, TextFailed =>
      let '(s', shown) := textReader_onerror s in
      Some {| state := s'; pending := others; alerts := (alerts w ++ shown)%list |}
  | Some (Generating _), Generated outcome =>
      let '(s', shown) := handleGenerateQuestions_resume s outcome in
      Some {| state := s'; pending := others; alerts := (alerts w ++ shown)%list |}
  | Some (Evaluating c), Evaluated outcome =>
      let '(s', shown) := handleSubmitAnswer_resume s c outcome in
      Some {| state := s'; pending := others; alerts := (alerts w ++ shown)%list |}
  | _, _ => None
  end.

(** One event; [None] when the control is absent or disabled, or when
    there is no such suspended computation. *)
Definition step (w : World) (e : Event) : option World :=
  let s := state w in
  match e with
  | ChooseFile path =>
      if Ui.file_input_disabled s then None
      else Some {| state := handleFileUpload (setFileInputValue path s);
                   pending := (pending w ++ [ReadingBuffer])%list;
                   alerts := alerts w |}
  | TypeQuestionCount value =>
      if Ui.count_input_disabled s then None
      else Some {| state := questionCount_onChange s value;
                   pending := pending w; alerts := alerts w |}
  | ClickGenerate =>
      if Ui.generate_disabled s then None
      else
        let '(s', input) := handleGenerateQuestions_start s in
        Some {| state := s';
                pending := match input with
                           | Some i => (pending w ++ [Generating i])%list
                           | None => pending w
                           end;
                alerts := alerts w |}
  | ClickClear =>
      if Ui.clear_enabled s
      then Some {| state := handleClear s; pending := pending w; alerts := alerts w |}
      else None
  | ClickStartNewQuiz =>
      if Ui.summary_shown s
      then Some {| state := handleClear s; pending := pending w; alerts := alerts w |}
      else None
  | SelectOption index value =>
      if Ui.radio_enabled s index value
      then Some {| state := selectAnswer s index value;
                   pending := pending w; alerts := alerts w |}
      else None
  | ClickSubmit index =>
      if Ui.submit_enabled s index
      then
        let '(s', closure) := handleSubmitAnswer_start s index in
        Some {| state := s';
                pending := match closure with
                           | Some c => (pending w ++ [Evaluating c])%list
                           | None => pending w
                           end;
                alerts := alerts w |}
      else None
  | Settle k r => settle w k r
  end.

(** A sequence of events from [w]. *)
Fixpoint run (w : World) (events : list Event) : option World :=
  match events with
  | [] => Some w
  | e :: rest =>
      match step w e with
      | Some w' => run w' rest
      | None => None
      end
  end.

(** The four per-question arrays have the length of [questions]. *)
Definition aligned (s : State) : Prop :=
  match questions s with
  | Some qs =>
      List.length (userAnswers s) = List.length qs
      /\ List.length (evaluationResults s) = List.length qs
      /\ List.length (isEvaluating s) = List.length qs
  | None => True
  end.

(** ** Notions used in the statements *)

(** The generator rejects, or resolves to nothing, to a value without
    questions, or to an empty list. *)
Definition generation_failed (outcome : GenerateOutcome) : bool :=
  match outcome with
  | GenerateRejected _ => true
  | GenerateResolved None => true
  | GenerateResolved (Some None) => true
  | GenerateResolved (Some (Some qs)) => Nat.eqb (List.length qs) 0
  end.

(** The evaluator rejects, or the [score] of what it sent is not a
    number. *)
Definition evaluation_failed (outcome : EvaluateOutcome) : bool :=
  match outcome with
  | EvaluateRejected _ => true
  | EvaluateResolved evaluation => negb (Js.is_number (optional_score evaluation))
  end.

(** The signature [%PDF]: the bytes 25 50 44 46. *)
Definition pdfSignature : list byte := [x25; x50; x44; x46]%byte.

(** The whole of an upload in which both readers deliver: the synchronous
    part of [handleFileUpload], then [reader.onload] on the bytes, then,
    if it started the text reader, [textReader.onload] on the text. *)
Definition fileIntake (s : State) (buffer : list byte) (content : string)
  : State * list string :=
  let '(s', shown, reading) := reader_onload (handleFileUpload s) buffer in
  if reading then (textReader_onload s' content, shown) else (s', shown).

(** Index [i] holds a result: neither [null] nor [undefined]. *)
Definition has_result (s : State) (i : nat) : Prop :=
  exists r, Js.get (evaluationResults s) i = Some (Some r).

(** Questions exist and every one of their indices holds a result. *)
Definition every_question_evaluated (s : State) : Prop :=
  exists q qs, questions s = Some (q :: qs)
               /\ forall i, (i < List.length (q :: qs))%nat -> has_result s i.

(** Questions exist and no slot of [evaluationResults] is [null]. *)
Definition no_null_slot (s : State) : Prop :=
  (exists q qs, questions s = Some (q :: qs))
  /\ forall i, (i < List.length (evaluationResults s))%nat ->
               Js.get (evaluationResults s) i <> Some None.

(** One slot per question, none of them [undefined]. *)
Definition results_per_question (s : State) : Prop :=
  forall qs, questions s = Some qs ->
    List.length (evaluationResults s) = List.length qs
    /\ forall i, (i < List.length qs)%nat -> Js.get (evaluationResults s) i <> None.

(** The closure captured arrays of the length of the present questions. *)
Definition fresh (s : State) (c : SubmitClosure) : Prop :=
  forall qs, questions s = Some qs ->
    List.length (closure_evaluationResults c) = List.length qs
    /\ List.length (closure_isEvaluating c) = List.length qs
    /\ (closure_index c < List.length qs)%nat.

(** ** Sessions used as examples *)

(** A PDF has been read into the initial session. *)
Definition fileReady : State :=
  textReader_onload (handleFileUpload initialState) "%PDF-1.4 text".

Definition q0 : Question :=
  {| question := "What is 1 + 1?"; options := Some ["1"; "2"; "3"; "4"]; answer := "2" |}.

Definition q1 : Question :=
  {| question := "What is 2 + 2?"; options := Some ["1"; "2"; "3"; "4"]; answer := "4" |}.

Definition q2 : Question :=
  {| question := "What is 3 - 2?"; options := Some ["1"; "2"; "3"; "4"]; answer := "1" |}.

(** Two questions generated from [fileReady], nothing answered yet. *)
Definition quizReady : State :=
  fst (handleGenerateQuestions_resume
         (fst (handleGenerateQuestions_start fileReady))
         (GenerateResolved (Some (Some [q0; q1])))).

(** The answer ["2"] chosen for the first question and submitted. *)
Definition firstSubmitted : State :=
  fst (handleSubmitAnswer_start (selectAnswer quizReady 0 "2") 0).

(** What that submission captured. *)
Definition firstClosure : SubmitClosure := {|
  closure_index := 0;
  closure_input := {| ev_question := "What is 1 + 1?"; ev_userAnswer := "2";
                      ev_correctAnswer := "2"; ev_pdfContent := "%PDF-1.4 text" |};
  closure_evaluationResults := [Some None; Some None];
  closure_isEvaluating := [Some false; Some false]
|}.

(** Both questions of [quizReady] evaluated as correct. *)
Definition quizDone : State :=
  setEvaluationResults
    [Some (Some {| evaluation_score := Js.Num 1 |});
     Some (Some {| evaluation_score := Js.Num 1 |})]
    quizReady.

(** The evaluator judges the answer correct. *)
Definition correct : EvaluateOutcome :=
  EvaluateResolved (Some {| evaluation_score := Js.Num 1 |}).

(** The evaluator answers with a score that is not a number. *)
Definition malformed : EvaluateOutcome :=
  EvaluateResolved (Some {| evaluation_score := Js.Str "1" |}).

(** The first bytes of a PDF file: [%PDF-1.4]. *)
Definition pdfBytes : list byte := [x25; x50; x44; x46; x2d; x31; x2e; x34]%byte.

(** A file is uploaded and two questions are generated from it. *)
Definition openQuiz : list Event :=
  [ ChooseFile "notes.pdf";
    Settle 0 (BufferLoaded pdfBytes);
    Settle 0 (TextLoaded "%PDF-1.4 text");
    TypeQuestionCount "2";
    ClickGenerate;
    Settle 0 (Generated (GenerateResolved (Some (Some [q0; q1])))) ].

(** Both answers are submitted before either evaluation returns.  The
    evaluations return in the order of submission; between the two returns
    the submit button of the second question is pressed once more. *)
Definition doubleCount : list Event :=
  (openQuiz ++
   [ SelectOption 0 "2";
     SelectOption 1 "4";
     ClickSubmit 0;
     ClickSubmit 1;
     Settle 0 (Evaluated correct);
     ClickSubmit 1;
     Settle 0 (Evaluated correct);
     Settle 0 (Evaluated correct) ])%list.

(** An answer is submitted, and before its evaluation returns the session
    is cleared, a file is uploaded and one question is generated. *)
Definition lateAnswer : list Event :=
  (openQuiz ++
   [ SelectOption 0 "2";
     ClickSubmit 0;
     ClickClear;
     ChooseFile "other.pdf";
     Settle 1 (BufferLoaded pdfBytes);
     Settle 1 (TextLoaded "%PDF-1.4 other");
     TypeQuestionCount "1";
     ClickGenerate;
     Settle 1 (Generated (GenerateResolved (Some (Some [q2]))));
     Settle 0 (Evaluated correct) ])%list.

(** The session in which [lateAnswer] ends. *)
Definition lateState : State := {|
  pdfContent := Some "%PDF-1.4 other";
  questions := Some [q2];
  userAnswers := [Some ""];
  isPdfUploaded := true;
  evaluationResults := [Some (Some {| evaluation_score := Js.Num 1 |}); Some None];
  questionCount := 1;
  score := 1;
  isLoading := false;
  isEvaluating := [Some false; Some false];
  fileInputValue := "other.pdf"
|}.

(** ** What is rendered besides the controls *)

Module View.

(** [Number.isNaN(v)]: true for the number NaN only. *)
Definition isNaN (v : Js.value) : bool :=
  match v with
  | Js.NaN => true
  | _ => false
  end.

(** The text of the generate button (line 256); [!questions] holds for
    [null] only, an empty array being truthy. *)
Definition generate_label (s : State) : string :=
  if isLoading s && match questions s with None => true | Some _ => false end
  then "Reading PDF..."
  else if isLoading s then "Generating..."
  else "Generate Questions".

(** [evaluationResults[index]] as a condition, with the [score] read
    through [?.]: [None] when the slot is [null] or [undefined]. *)
Definition result_score (s : State) (index : nat) : option Js.value :=
  match Js.get (evaluationResults s) index with
  | Some (Some e) => Some (evaluation_score e)
  | _ => None
  end.

(** Line 306: the result box of card [index] is rendered. *)
Definition result_shown (s : State) (index : nat) : bool :=
  match result_score s index with
  | Some v => Js.is_number v
  | None => false
  end.

(** Line 322: the first error box. *)
Definition error_nan_shown (s : State) (index : nat) : bool :=
  match result_score s index with
  | Some v => negb (Js.is_number v) && isNaN v
  | None => false
  end.

(** Line 329: the second error box. *)
Definition error_other_shown (s : State) (index : nat) : bool :=
  match result_score s index with
  | Some v => negb (Js.is_number v) && negb (isNaN v)
  | None => false
  end.

End View.

(** ** Notions used in the further statements *)

(** [sub] occurs in [s]. *)
Definition occurs_in (sub s : string) : Prop :=
  exists before after, s = before ++ sub ++ after.

(** One of the three markers of a rate-limit error occurs in the message. *)
Definition mentions_rate_limit (errorMessage : string) : Prop :=
  occurs_in "429" errorMessage
  \/ occurs_in "Too Many Requests" errorMessage
  \/ occurs_in "QuotaFailure" errorMessage.

(** The decimal numeral with the digits [ds], most significant first. *)
Fixpoint numeral (ds : list nat) : string :=
  match ds with
  | [] => ""
  | d :: rest => String (ascii_of_nat (48 + d)) (numeral rest)
  end.

(** The number that the digits [ds] denote on top of [acc]. *)
Fixpoint numeral_value (ds : list nat) (acc : Z) : Z :=
  match ds with
  | [] => acc
  | d :: rest => numeral_value rest (acc * 10 + Z.of_nat d)
  end.

(** [tail] cannot be taken for more of a decimal numeral, nor, after a
    single zero, for a radix prefix: it is empty or starts with a
    character that is neither a decimal digit nor [x] nor [X]. *)
Definition ends_numeral (tail : string) : bool :=
  match tail with
  | EmptyString => true
  | String c _ =>
      match Js.digit_value c with
      | Some d => (10 <=? d)%Z
      | None => negb (Ascii.eqb c "x" || Ascii.eqb c "X")
      end
  end.

(** A string is truthy: neither [null] nor empty. *)
Definition truthy (s : option string) : Prop := Js.falsy_string s = false.

(** The options of a question, none when the field is missing. *)
Definition options_of (q : Question) : list string :=
  match options q with
  | Some opts => opts
  | None => []
  end.

(** File reads and generations, the computations that hold [isLoading]. *)
Definition is_loader (p : Pending) : bool :=
  match p with
  | ReadingBuffer | ReadingText | Generating _ => true
  | Evaluating _ => false
  end.

Definition loaders (ps : list Pending) : list Pending := filter is_loader ps.

(** Every result held in [arr] has a numeric score. *)
Definition numeric_results (arr : Js.array (option EvaluationResult)) : Prop :=
  forall i e, Js.get arr i = Some (Some e) -> Js.is_number (evaluation_score e) = true.

(** What the computation in flight, if any, implies about the session. *)
Definition loader_state (w : World) : Prop :=
  let s := state w in
  match loaders (pending w) with
  | [] => isLoading s = false
  | [ReadingBuffer] | [ReadingText] =>
      isLoading s = true /\ questions s = None
      /\ pdfContent s = None /\ isPdfUploaded s = false
  | [Generating input] =>
      isLoading s = true /\ questions s = None
      /\ truthy (pdfContent s) /\ isPdfUploaded s = true
      /\ pdfContent s = Some (gen_pdfContent input)
  | _ => False
  end.

(** The answers follow the questions: none without questions, else one
    slot per question holding the empty string or one of its options. *)
Definition answers_follow_questions (s : State) : Prop :=
  match questions s with
  | None => userAnswers s = []
  | Some qs =>
      List.length (userAnswers s) = List.length qs
      /\ forall i q, nth_error qs i = Some q ->
           exists v, Js.get (userAnswers s) i = Some v
                     /\ (v = "" \/ In v (options_of q))
  end.

(** The invariant of the running component. *)
Record Inv (w : World) : Prop := {
  inv_loader : loader_state w;
  inv_uploaded : isPdfUploaded (state w) = true <-> pdfContent (state w) <> None;
  inv_content : questions (state w) <> None ->
                truthy (pdfContent (state w)) /\ isPdfUploaded (state w) = true;
  inv_answers : answers_follow_questions (state w);
  inv_results : numeric_results (evaluationResults (state w));
  inv_closures : forall c, In (Evaluating c) (pending w) ->
                   numeric_results (closure_evaluationResults c);
  inv_score : 0 <= score (state w)
}.

(** The count is one the generator accepts, and so is every request in
    flight, which also carries a non-empty content. *)
Definition requests_in_range (w : World) : Prop :=
  1 <= questionCount (state w) <= 20
  /\ forall input, In (Generating input) (pending w) ->
        1 <= gen_questionCount input <= 20 /\ gen_pdfContent input <> "".

(** ** JavaScript arrays *)

Lemma get_set_same {A : Type} (arr : Js.array A) (i : nat) (v : A) :
  Js.get (Js.set arr i v) i = Some v.
Proof.
  revert arr. induction i as [| i IH]; intros [| slot rest]; cbn; auto.
  - apply (IH []).
  - apply IH.
Qed.

Lemma get_cons {A : Type} (slot : option A) (arr : Js.array A) (j : nat) :
  Js.get (slot :: arr) (S j) = Js.get arr j.
Proof. reflexivity. Qed.

Lemma get_nil {A : Type} (j : nat) : Js.get (@nil (option A)) j = None.
Proof. destruct j; reflexivity. Qed.

Lemma get_set_other {A : Type} (arr : Js.array A) (i j : nat) (v : A) :
  i <> j -> Js.get (Js.set arr i v) j = Js.get arr j.
Proof.
  revert arr j. induction i as [| i IH]; intros [| slot rest] [| j] Neq;
    try congruence; try reflexivity.
  - cbn [Js.set]. rewrite get_cons, !get_nil. reflexivity.
  - cbn [Js.set]. rewrite get_cons, IH, !get_nil by congruence. reflexivity.
  - cbn [Js.set]. rewrite !get_cons. apply IH. congruence.
Qed.

Lemma set_length {A : Type} (arr : Js.array A) (i : nat) (v : A) :
  (i < List.length arr)%nat -> List.length (Js.set arr i v) = List.length arr.
Proof.
  revert arr. induction i as [| i IH]; intros [| slot rest] Lt; cbn in *;
    try lia. rewrite IH; lia.
Qed.

(** ** Reset *)

(** C8: [handleClear] is defined on every state, and from every state it
    yields the empty session: no content, no questions, empty answer,
    result and flag arrays, score zero, nothing uploaded, not loading.
    Only the question count is carried over. *)
Theorem handleClear_yields_empty (s : State) :
  handleClear s =
  {| pdfContent := None; questions := None; userAnswers := [];
     isPdfUploaded := false; evaluationResults := [];
     questionCount := questionCount s; score := 0; isLoading := false;
     isEvaluating := []; fileInputValue := "" |}.
Proof. reflexivity. Qed.

(** C10: [handleClear] keeps the question count: every other field goes
    back to its initial value while [questionCount] stays what the user
    last set, so a count of 12 is still 12, not the default 5, after a
    reset. *)
Theorem handleClear_keeps_questionCount :
  (forall s, questionCount (handleClear s) = questionCount s)
  /\ (forall s, handleClear s = setQuestionCount (questionCount s) initialState)
  /\ questionCount initialState = 5
  /\ questionCount (handleClear (questionCount_onChange initialState "12")) = 12.
Proof. repeat split. Qed.

(** ** The question count *)

Lemma clamp_range (z : Z) : 1 <= Z.max 1 (Z.min 20 z) <= 20.
Proof. lia. Qed.

(** C9: whatever is typed in the question-count field, the stored count is
    an integer between 1 and 20; ["-5"] gives 1, ["999"] gives 20, the
    empty text gives 1, and so does every text [parseInt] cannot read a
    number from (such as ["abc"]). *)
Theorem questionCount_clamped :
  (forall s value, 1 <= questionCount (questionCount_onChange s value) <= 20)
  /\ (forall s, questionCount (questionCount_onChange s "-5") = 1)
  /\ (forall s, questionCount (questionCount_onChange s "999") = 20)
  /\ (forall s, questionCount (questionCount_onChange s "") = 1)
  /\ (forall s, questionCount (questionCount_onChange s "abc") = 1)
  /\ (forall s value, Js.parseInt value = None ->
        questionCount (questionCount_onChange s value) = 1).
Proof.
  split; [intros s value; apply clamp_range|].
  repeat (split; [reflexivity|]).
  intros s value NaN.
  cbn [questionCount_onChange setQuestionCount questionCount].
  rewrite NaN. reflexivity.
Qed.

Lemma questionCount_clamped_witness :
  questionCount (questionCount_onChange initialState "twenty") = 1.
Proof.
  apply (proj2 (proj2 (proj2 (proj2 (proj2 questionCount_clamped))))).
  reflexivity.
Defined.

(** ** File intake *)

Lemma toString16_byte_shape (b : byte) :
  (exists c, Js.toString16 (Byte.to_N b) = String c "")
  \/ (exists c d, Js.toString16 (Byte.to_N b) = String c (String d "")).
Proof.
  destruct b;
    ((left; eexists; vm_compute; reflexivity)
     || (right; do 2 eexists; vm_compute; reflexivity)).
Qed.

Ltac byte_of_hex b :=
  destruct b; intros H; solve [reflexivity | vm_compute in H; discriminate H].

Lemma toString16_25 (b : byte) : Js.toString16 (Byte.to_N b) = "25" -> b = x25.
Proof. byte_of_hex b. Qed.

Lemma toString16_50 (b : byte) : Js.toString16 (Byte.to_N b) = "50" -> b = x50.
Proof. byte_of_hex b. Qed.

Lemma toString16_44 (b : byte) : Js.toString16 (Byte.to_N b) = "44" -> b = x44.
Proof. byte_of_hex b. Qed.

Lemma toString16_46 (b : byte) : Js.toString16 (Byte.to_N b) = "46" -> b = x46.
Proof. byte_of_hex b. Qed.

Ltac split_string_eq :=
  repeat match goal with
         | H : String _ _ = String _ _ |- _ => injection H as ? H
         | H : String _ _ = EmptyString |- _ => discriminate H
         | H : EmptyString = String _ _ |- _ => discriminate H
         end.

Ltac hex_shape b E :=
  let c := fresh "c" in
  let d := fresh "d" in
  destruct (toString16_byte_shape b) as [[c E] | [c [d E]]].

Lemma header_firstn (buffer : list byte) : header (firstn 4 buffer) = header buffer.
Proof. unfold header. rewrite firstn_firstn. reflexivity. Qed.

(** Without padding a byte below 16 gives one digit only, yet no other
    run of at most four bytes spells the same eight digits. *)
Lemma header_is_signature (buffer : list byte) :
  header buffer = "25504446" <-> firstn 4 buffer = pdfSignature.
Proof.
  split.
  - destruct buffer as [| b1 [| b2 [| b3 [| b4 rest]]]];
      unfold header; cbn [firstn fold_left]; intros H.
    + discriminate H.
    + hex_shape b1 E1; rewrite E1 in H; cbn in H; split_string_eq.
    + hex_shape b1 E1; hex_shape b2 E2; rewrite E1, E2 in H; cbn in H;
        split_string_eq.
    + hex_shape b1 E1; hex_shape b2 E2; hex_shape b3 E3;
        rewrite E1, E2, E3 in H; cbn in H; split_string_eq.
    + hex_shape b1 E1; hex_shape b2 E2; hex_shape b3 E3; hex_shape b4 E4;
        rewrite E1, E2, E3, E4 in H; cbn in H; split_string_eq.
      subst.
      rewrite (toString16_25 b1 E1), (toString16_50 b2 E2),
        (toString16_44 b3 E3), (toString16_46 b4 E4).
      reflexivity.
  - intros Sig. rewrite <- header_firstn, Sig. reflexivity.
Qed.

Lemma reader_onload_cases (s : State) (buffer : list byte) :
  (firstn 4 buffer = pdfSignature /\ reader_onload s buffer = (s, [], true))
  \/ (firstn 4 buffer <> pdfSignature
      /\ reader_onload s buffer
         = (handleClear s, ["This does not appear to be a valid PDF file."], false)).
Proof.
  unfold reader_onload.
  destruct (String.eqb (header buffer) "25504446") eqn:E.
  - left. apply String.eqb_eq, header_is_signature in E. auto.
  - right. apply String.eqb_neq in E. rewrite header_is_signature in E. auto.
Qed.

(** C5: an upload whose reads succeed ends with [isPdfUploaded = true]
    exactly when the first four bytes of the file are 25 50 44 46.  Then
    the text is stored and no alert is shown.  For every other byte
    sequence the invalid-file alert is shown and the session is the empty
    one: no content, no questions, no answers or results, score zero,
    nothing uploaded, not loading. *)
Theorem fileIntake_checks_signature (s : State) (buffer : list byte) (content : string) :
  let s' := fst (fileIntake s buffer content) in
  let shown := snd (fileIntake s buffer content) in
  (isPdfUploaded s' = true <-> firstn 4 buffer = pdfSignature)
  /\ (firstn 4 buffer = pdfSignature ->
      shown = [] /\ pdfContent s' = Some content /\ isLoading s' = false
      /\ questions s' = None /\ score s' = 0)
  /\ (firstn 4 buffer <> pdfSignature ->
      shown = ["This does not appear to be a valid PDF file."]
      /\ s' = handleClear s
      /\ pdfContent s' = None /\ questions s' = None /\ userAnswers s' = []
      /\ evaluationResults s' = [] /\ score s' = 0 /\ isPdfUploaded s' = false
      /\ isLoading s' = false).
Proof.
  unfold fileIntake.
  destruct (reader_onload_cases (handleFileUpload s) buffer) as [[Sig E] | [Bad E]];
    rewrite E; cbn [fst snd].
  - split; [split; auto |]. split; [intros _; repeat split | contradiction].
  - split; [split; [discriminate | contradiction] |].
    split; [contradiction | intros _; repeat split].
Qed.

Lemma fileIntake_checks_signature_witness :
  isPdfUploaded (fst (fileIntake initialState [x25; x50; x44; x46; x2d]%byte "%PDF-")) = true
  /\ pdfContent (fst (fileIntake initialState [x25; x50; x44; x46; x2d]%byte "%PDF-"))
     = Some "%PDF-"
  /\ fst (fileIntake quizReady [x02; x55; x04; x44; x06]%byte "text")
     = handleClear quizReady.
Proof.
  split; [| split].
  - apply (proj1 (fileIntake_checks_signature initialState
                    [x25; x50; x44; x46; x2d]%byte "%PDF-")).
    reflexivity.
  - apply (proj1 (proj2 (fileIntake_checks_signature initialState
                           [x25; x50; x44; x46; x2d]%byte "%PDF-"))).
    reflexivity.
  - apply (proj2 (proj2 (fileIntake_checks_signature quizReady
                           [x02; x55; x04; x44; x06]%byte "text"))).
    discriminate.
Defined.

(** ** Generation failures *)

Lemma generate_try_failed (s : State) (outcome : GenerateOutcome) :
  generation_failed outcome = true ->
  exists errorMessage, generate_try s outcome = inr errorMessage.
Proof.
  destruct outcome as [msg | [[[| q qs] |] |]]; cbn; intros F;
    try discriminate; eexists; reflexivity.
Qed.

Lemma start_keeps_file (s s1 : State) (input : GenerateInput) :
  handleGenerateQuestions_start s = (s1, Some input) ->
  pdfContent s1 = pdfContent s
  /\ isPdfUploaded s1 = isPdfUploaded s
  /\ exists c content, pdfContent s = Some (String c content).
Proof.
  unfold handleGenerateQuestions_start.
  destruct (pdfContent s) as [[| c content] |] eqn:P; intros E;
    inversion E; subst; cbn; rewrite ?P; eauto.
Qed.

(** C6: when a generation attempt fails (the generator rejects, or gives
    no list or an empty one), the session is back in the file-ready state,
    not the empty one: no questions, not loading, and the content and the
    uploaded flag are those from before the attempt, the content still
    being there. *)
Theorem generation_failure_keeps_file
    (s s1 : State) (input : GenerateInput) (outcome : GenerateOutcome) :
  handleGenerateQuestions_start s = (s1, Some input) ->
  generation_failed outcome = true ->
  let s2 := fst (handleGenerateQuestions_resume s1 outcome) in
  questions s2 = None
  /\ isLoading s2 = false
  /\ pdfContent s2 = pdfContent s
  /\ isPdfUploaded s2 = isPdfUploaded s
  /\ exists c content, pdfContent s2 = Some (String c content).
Proof.
  intros Start Failed.
  destruct (start_keeps_file _ _ _ Start) as (P & U & c & content & Content).
  destruct (generate_try_failed s1 outcome Failed) as [msg Try].
  unfold handleGenerateQuestions_resume. rewrite Try. cbn.
  rewrite P, U. repeat split; eauto.
Qed.

Lemma generation_failure_keeps_file_witness :
  let s2 := fst (handleGenerateQuestions_resume
                   (fst (handleGenerateQuestions_start fileReady))
                   (GenerateRejected "429 Too Many Requests")) in
  questions s2 = None
  /\ isLoading s2 = false
  /\ pdfContent s2 = pdfContent fileReady
  /\ isPdfUploaded s2 = isPdfUploaded fileReady
  /\ exists c content, pdfContent s2 = Some (String c content).
Proof.
  apply (generation_failure_keeps_file fileReady _
           {| gen_pdfContent := "%PDF-1.4 text"; gen_questionCount := 5 |}).
  - reflexivity.
  - reflexivity.
Defined.

(** ** Answer collection *)

(** C2: a click that the radio group of card [index] accepts stores the
    value at [index] and touches no other answer; when the slot of [index]
    in [evaluationResults] is not [null], or the evaluating flag of
    [index] is set, the group is disabled, [selectAnswer] leaves the
    whole state, and so the answer at [index], as it was, and the running
    component has no transition for the click. *)
Theorem selectAnswer_only_before_evaluation (s : State) (index : nat) (value : string) :
  (Ui.radio_enabled s index value = true ->
     Js.get (userAnswers (selectAnswer s index value)) index = Some value
     /\ forall j, j <> index ->
          Js.get (userAnswers (selectAnswer s index value)) j
          = Js.get (userAnswers s) j)
  /\ (not_null (Js.get (evaluationResults s) index) = true
      \/ Ui.evaluating s index = true ->
      Ui.radio_enabled s index value = false
      /\ selectAnswer s index value = s
      /\ forall w, state w = s -> step w (SelectOption index value) = None).
Proof.
  unfold selectAnswer. split.
  - intros Enabled. rewrite Enabled. cbn. split.
    + apply get_set_same.
    + intros j Neq. apply get_set_other. congruence.
  - intros Blocked.
    assert (Off : Ui.radio_enabled s index value = false).
    { unfold Ui.radio_enabled, Ui.radio_disabled.
      destruct (Ui.card s index); [| reflexivity].
      destruct Blocked as [-> | ->]; cbn;
        rewrite ?orb_true_r; cbn; rewrite ?andb_false_r; reflexivity. }
    rewrite Off. repeat split.
    intros w <-. cbn. rewrite Off. reflexivity.
Qed.

Lemma selectAnswer_only_before_evaluation_witness :
  Js.get (userAnswers (selectAnswer quizReady 0 "2")) 0 = Some "2"
  /\ selectAnswer firstSubmitted 0 "3" = firstSubmitted.
Proof.
  split.
  - apply (proj1 (selectAnswer_only_before_evaluation quizReady 0 "2")).
    reflexivity.
  - apply (proj2 (selectAnswer_only_before_evaluation firstSubmitted 0 "3")).
    right. reflexivity.
Defined.

(** ** Answer evaluation *)

Example firstClosure_captured :
  handleSubmitAnswer_start (selectAnswer quizReady 0 "2") 0
  = (firstSubmitted, Some firstClosure).
Proof. reflexivity. Qed.

Lemma submit_try_failed (s : State) (c : SubmitClosure) (outcome : EvaluateOutcome) :
  evaluation_failed outcome = true ->
  exists errorMessage, submit_try s c outcome = inr errorMessage.
Proof.
  destruct outcome as [msg | evaluation]; cbn; intros F.
  - eexists; reflexivity.
  - rewrite F. eexists; reflexivity.
Qed.

Lemma evaluating_after_finally (s : State) (c : SubmitClosure) :
  Ui.evaluating (submit_finally s c) (closure_index c) = false.
Proof.
  unfold Ui.evaluating, submit_finally. cbn. rewrite get_set_same. reflexivity.
Qed.

(** C4: when the evaluation of index [i] fails (the evaluator rejects, or
    the score it sent is not a number), whatever the state at that time
    and whatever the closure captured: the results are untouched, so a
    [null] at [i] is still [null]; the score is unchanged; the evaluating
    flag of [i] is [false]; exactly one alert is shown; and the submit
    button of [i] is enabled again as soon as the answer at [i] is
    non-empty and the question has its four options. *)
Theorem evaluation_failure_reverts
    (s : State) (c : SubmitClosure) (outcome : EvaluateOutcome) :
  evaluation_failed outcome = true ->
  let i := closure_index c in
  let s' := fst (handleSubmitAnswer_resume s c outcome) in
  evaluationResults s' = evaluationResults s
  /\ (Js.get (evaluationResults s) i = Some None ->
      Js.get (evaluationResults s') i = Some None)
  /\ score s' = score s
  /\ Js.get (isEvaluating s') i = Some false
  /\ userAnswers s' = userAnswers s
  /\ List.length (snd (handleSubmitAnswer_resume s c outcome)) = 1%nat
  /\ (forall q,
        Ui.card s i = Some q ->
        Ui.options_invalid q = false ->
        Js.falsy_string (Js.get (userAnswers s) i) = false ->
        Js.get (evaluationResults s) i = Some None ->
        Ui.submit_enabled s' i = true).
Proof.
  intros Failed i s'.
  destruct (submit_try_failed s c outcome Failed) as [msg Try].
  assert (E : handleSubmitAnswer_resume s c outcome
              = (submit_finally s c, snd (submit_catch s msg))).
  { unfold handleSubmitAnswer_resume. rewrite Try. reflexivity. }
  subst s'. rewrite E. cbn [fst snd].
  repeat split; auto.
  - unfold submit_finally. cbn. apply get_set_same.
  - intros q Card Valid Answered Null.
    unfold Ui.submit_enabled, Ui.submit_disabled.
    replace (Ui.card (submit_finally s c) i) with (Ui.card s i) by reflexivity.
    rewrite Card.
    change (userAnswers (submit_finally s c)) with (userAnswers s).
    change (evaluationResults (submit_finally s c)) with (evaluationResults s).
    fold i. rewrite Answered, Null, Valid.
    unfold i. rewrite evaluating_after_finally. reflexivity.
Qed.

Lemma evaluation_failure_reverts_witness :
  let s' := fst (handleSubmitAnswer_resume firstSubmitted firstClosure
                   (EvaluateRejected "[429 Too Many Requests]")) in
  Js.get (evaluationResults s') 0 = Some None
  /\ score s' = 0
  /\ Js.get (isEvaluating s') 0 = Some false
  /\ Ui.submit_enabled s' 0 = true.
Proof.
  destruct (evaluation_failure_reverts firstSubmitted firstClosure
              (EvaluateRejected "[429 Too Many Requests]") eq_refl)
    as (_ & Null & Score & Flag & _ & _ & Again).
  split; [apply Null; reflexivity |].
  split; [exact Score |].
  split; [exact Flag |].
  apply (Again q0); reflexivity.
Defined.

(** An evaluation that returns a numeric score adds one to the score
    current at that time when the score is 1, and nothing otherwise. *)
Lemma evaluation_success_score
    (s : State) (c : SubmitClosure) (evaluation : option EvaluationResult) :
  Js.is_number (optional_score evaluation) = true ->
  score (fst (handleSubmitAnswer_resume s c (EvaluateResolved evaluation)))
  = if Js.is_one (optional_score evaluation) then score s + 1 else score s.
Proof.
  intros Number. unfold handleSubmitAnswer_resume, submit_try.
  rewrite Number. cbn [negb].
  destruct (Js.is_one (optional_score evaluation)); reflexivity.
Qed.

(** Once a result is stored at an index, its submit button is disabled. *)
Lemma submit_disabled_with_result (s : State) (i : nat) :
  has_result s i -> Ui.submit_enabled s i = false.
Proof.
  intros [r R]. unfold Ui.submit_enabled, Ui.submit_disabled.
  destruct (Ui.card s i); [| reflexivity].
  rewrite R. cbn. rewrite orb_true_r. reflexivity.
Qed.

(** ** Completion *)

Lemma forallb_not_null {A : Type} (arr : Js.array (option A)) :
  forallb not_null arr = true
  <-> forall i, (i < List.length arr)%nat -> Js.get arr i <> Some None.
Proof.
  induction arr as [| slot rest IH]; cbn [forallb List.length].
  - split; [intros _ i Lt; inversion Lt | reflexivity].
  - rewrite andb_true_iff, IH. split.
    + intros [Slot Rest] [| i] Lt.
      * cbn. intros ->. discriminate Slot.
      * rewrite get_cons. apply Rest. lia.
    + intros All. split.
      * specialize (All 0%nat ltac:(lia)). cbn in All.
        destruct slot as [[r |] |]; cbn; congruence.
      * intros i Lt. specialize (All (S i) ltac:(lia)).
        rewrite get_cons in All. exact All.
Qed.

Lemma allAnswersEvaluated_slots (s : State) :
  allAnswersEvaluated s = true <-> no_null_slot s.
Proof.
  unfold allAnswersEvaluated, no_null_slot.
  destruct (questions s) as [[| q qs] |].
  - split; [discriminate | intros [(q & qs & E) _]; discriminate E].
  - rewrite forallb_not_null. split; [intros All; split; eauto | tauto].
  - split; [discriminate | intros [(q & qs & E) _]; discriminate E].
Qed.

(** C7, as the code has it: [allAnswersEvaluated] is true if and only if
    questions exist (the list is there and not empty) and no slot of
    [evaluationResults] is [null]; it is false when there are no
    questions.  When [evaluationResults] has one slot per question, none
    of them [undefined], this is the same as every question index having
    a result, and then it is false as soon as one result is missing. *)
Theorem allAnswersEvaluated_characterised (s : State) :
  (allAnswersEvaluated s = true <-> no_null_slot s)
  /\ (questions s = None \/ questions s = Some [] -> allAnswersEvaluated s = false)
  /\ (results_per_question s ->
      (allAnswersEvaluated s = true <-> every_question_evaluated s)).
Proof.
  split; [apply allAnswersEvaluated_slots |]. split.
  - unfold allAnswersEvaluated. intros [-> | ->]; reflexivity.
  - intros Shape. rewrite allAnswersEvaluated_slots.
    unfold no_null_slot, every_question_evaluated, has_result. split.
    + intros [(q & qs & Q) All]. exists q, qs. split; [exact Q |].
      destruct (Shape _ Q) as [Len Defined]. intros i Lt.
      specialize (Defined i Lt). specialize (All i ltac:(lia)).
      destruct (Js.get (evaluationResults s) i) as [[r |] |];
        [eauto | congruence | congruence].
    + intros (q & qs & Q & All). split; [eauto |].
      destruct (Shape _ Q) as [Len _]. intros i Lt.
      destruct (All i ltac:(lia)) as [r R]. congruence.
Qed.

Lemma allAnswersEvaluated_characterised_witness :
  allAnswersEvaluated initialState = false
  /\ (allAnswersEvaluated quizDone = true <-> every_question_evaluated quizDone).
Proof.
  split.
  - apply (proj1 (proj2 (allAnswersEvaluated_characterised initialState))).
    left. reflexivity.
  - apply (proj2 (proj2 (allAnswersEvaluated_characterised quizDone))).
    intros qs Q. inversion Q; subst. split; [reflexivity |].
    intros [| [| i]] Lt; cbn; [discriminate | discriminate | cbn in Lt; lia].
Defined.

(** ** Alignment of the per-question arrays *)

Lemma card_in_range (s : State) (i : nat) (q : Question) (qs : list Question) :
  Ui.card s i = Some q -> questions s = Some qs -> (i < List.length qs)%nat.
Proof.
  unfold Ui.card. intros Card Q. rewrite Q in Card.
  apply nth_error_Some. congruence.
Qed.

Lemma aligned_no_questions (s : State) : questions s = None -> aligned s.
Proof. unfold aligned. intros ->. exact I. Qed.

Lemma handleAnswerChange_aligned (s : State) (i : nat) (v : string) (q : Question) :
  Ui.card s i = Some q -> aligned s -> aligned (handleAnswerChange s i v).
Proof.
  intros Card. unfold aligned, handleAnswerChange. cbn.
  destruct (questions s) as [qs |] eqn:Q; [| auto].
  intros (A & R & E). pose proof (card_in_range _ _ _ _ Card Q).
  rewrite set_length by lia. auto.
Qed.

Lemma handleSubmitAnswer_start_aligned (s : State) (i : nat) (q : Question) :
  Ui.card s i = Some q -> aligned s -> aligned (fst (handleSubmitAnswer_start s i)).
Proof.
  intros Card Al. unfold handleSubmitAnswer_start.
  destruct (pdfContent s) as [[| c content] |]; try exact Al.
  destruct (questions s) as [qs |] eqn:Q; try exact Al.
  destruct (Js.get (userAnswers s) i) as [[| a ua] |]; try exact Al.
  destruct (nth_error qs i) eqn:N; try exact Al.
  cbn. unfold aligned in *. cbn. rewrite Q in *.
  destruct Al as (A & R & E). pose proof (card_in_range _ _ _ _ Card Q).
  rewrite set_length by lia. auto.
Qed.

Lemma handleGenerateQuestions_start_aligned (s : State) :
  aligned s -> aligned (fst (handleGenerateQuestions_start s)).
Proof.
  intros Al. unfold handleGenerateQuestions_start.
  destruct (pdfContent s) as [[| c content] |]; try exact Al.
  apply aligned_no_questions. reflexivity.
Qed.

Lemma handleGenerateQuestions_resume_aligned (s : State) (outcome : GenerateOutcome) :
  aligned (fst (handleGenerateQuestions_resume s outcome)).
Proof.
  unfold handleGenerateQuestions_resume.
  destruct outcome as [msg | [[[| q qs] |] |]]; cbn; try exact I.
  unfold aligned, Js.fill. cbn. rewrite !repeat_length. auto.
Qed.

Lemma handleSubmitAnswer_resume_aligned
    (s : State) (c : SubmitClosure) (outcome : EvaluateOutcome) :
  fresh s c -> aligned s -> aligned (fst (handleSubmitAnswer_resume s c outcome)).
Proof.
  intros Fresh Al. unfold aligned in *.
  replace (questions (fst (handleSubmitAnswer_resume s c outcome)))
    with (questions s).
  2:{ unfold handleSubmitAnswer_resume, submit_try.
      destruct outcome as [msg | evaluation]; [reflexivity |].
      destruct (Js.is_number (optional_score evaluation)); [| reflexivity].
      destruct (Js.is_one (optional_score evaluation)); reflexivity. }
  destruct (questions s) as [qs |] eqn:Q; [| exact I].
  destruct (Fresh qs Q) as (CR & CE & Lt). destruct Al as (A & R & E).
  unfold handleSubmitAnswer_resume, submit_try.
  destruct outcome as [msg | evaluation]; cbn.
  - rewrite set_length by lia. auto.
  - destruct (Js.is_number (optional_score evaluation)); cbn.
    + destruct (Js.is_one (optional_score evaluation)); cbn;
        rewrite !set_length by lia; auto.
    + rewrite set_length by lia. auto.
Qed.

(** Every event keeps the four arrays aligned, the return of an
    evaluation included when what its closure captured is [fresh]. *)
Lemma step_keeps_aligned (w w' : World) (e : Event) :
  step w e = Some w' ->
  (forall k c outcome,
      e = Settle k (Evaluated outcome) ->
      nth_error (pending w) k = Some (Evaluating c) ->
      fresh (state w) c) ->
  aligned (state w) -> aligned (state w').
Proof.
  intros Step Fresh Al. destruct e as [path | value | | | | i v | i | k r]; cbn in Step.
  - destruct (Ui.file_input_disabled (state w)); inversion Step; subst.
    apply aligned_no_questions. reflexivity.
  - destruct (Ui.count_input_disabled (state w)); inversion Step; subst. exact Al.
  - destruct (Ui.generate_disabled (state w)); [discriminate |].
    pose proof (handleGenerateQuestions_start_aligned _ Al) as Al'.
    destruct (handleGenerateQuestions_start (state w)) as [s' input].
    inversion Step; subst. exact Al'.
  - destruct (Ui.clear_enabled (state w)); inversion Step; subst.
    apply aligned_no_questions. reflexivity.
  - destruct (Ui.summary_shown (state w)); inversion Step; subst.
    apply aligned_no_questions. reflexivity.
  - destruct (Ui.radio_enabled (state w) i v) eqn:En; inversion Step; subst.
    cbn. unfold selectAnswer. rewrite En.
    unfold Ui.radio_enabled in En.
    destruct (Ui.card (state w) i) as [q |] eqn:Card; [| discriminate].
    eapply handleAnswerChange_aligned; eauto.
  - destruct (Ui.submit_enabled (state w) i) eqn:En; [| discriminate].
    unfold Ui.submit_enabled in En.
    destruct (Ui.card (state w) i) as [q |] eqn:Card; [| discriminate].
    pose proof (handleSubmitAnswer_start_aligned _ _ _ Card Al) as Al'.
    destruct (handleSubmitAnswer_start (state w) i) as [s' closure].
    inversion Step; subst. exact Al'.
  - unfold settle in Step.
    destruct (nth_error (pending w) k) as [[| | input | c] |] eqn:P;
      destruct r as [buffer | | content | | outcome | outcome]; try discriminate.
    + destruct (reader_onload_cases (state w) buffer) as [[_ E] | [_ E]];
        rewrite E in Step; inversion Step; subst;
        [exact Al | apply aligned_no_questions; reflexivity].
    + cbn in Step. inversion Step; subst. apply aligned_no_questions. reflexivity.
    + inversion Step; subst. exact Al.
    + cbn in Step. inversion Step; subst. apply aligned_no_questions. reflexivity.
    + pose proof (handleGenerateQuestions_resume_aligned (state w) outcome) as Al'.
      destruct (handleGenerateQuestions_resume (state w) outcome) as [s' shown].
      inversion Step; subst. exact Al'.
    + pose proof (handleSubmitAnswer_resume_aligned (state w) c outcome
                    (Fresh k c outcome eq_refl P) Al) as Al'.
      destruct (handleSubmitAnswer_resume (state w) c outcome) as [s' shown].
      inversion Step; subst. exact Al'.
Qed.

(** ** Evaluations that return late *)

Lemma lateAnswer_reaches_lateState :
  run initialWorld lateAnswer
  = Some {| state := lateState; pending := []; alerts := [] |}.
Proof. vm_compute. reflexivity. Qed.

(** C1, on the run [doubleCount]: after ten events both answers are
    submitted and both evaluating flags are set.  The return of the
    evaluation of index 0 is counted once, and its [finally] block stores
    the flags captured at its submission, so the flag of index 1 is
    cleared and its submit button enabled while its evaluation is still in
    flight.  Index 1 is submitted again; both of its evaluations return a
    score of 1 and both are counted: the session ends with every question
    evaluated and a score of 3 on 2 questions. *)
Theorem doubleCount_counts_index_twice :
  exists w10 w11 w14 c,
    run initialWorld (firstn 10 doubleCount) = Some w10
    /\ Ui.evaluating (state w10) 0 = true
    /\ Ui.evaluating (state w10) 1 = true
    /\ step w10 (Settle 0 (Evaluated correct)) = Some w11
    /\ score (state w11) = 1
    /\ pending w11 = [Evaluating c] /\ closure_index c = 1%nat
    /\ Ui.evaluating (state w11) 1 = false
    /\ Ui.submit_enabled (state w11) 1 = true
    /\ run w11 [ClickSubmit 1; Settle 0 (Evaluated correct);
                Settle 0 (Evaluated correct)] = Some w14
    /\ run initialWorld doubleCount = Some w14
    /\ questions (state w14) = Some [q0; q1]
    /\ allAnswersEvaluated (state w14) = true
    /\ score (state w14) = 3.
Proof.
  do 4 eexists.
  split; [vm_compute; reflexivity |].
  repeat (split; [vm_compute; reflexivity |]).
  vm_compute; reflexivity.
Qed.

(** C3, on the run [lateAnswer]: before its last event the session has
    one question and all four arrays have length one; the last event, the
    return of the evaluation submitted in the earlier session, stores the
    two-slot arrays captured then, so that [questions] and [userAnswers]
    have length one while [evaluationResults] and [isEvaluating] have
    length two. *)
Theorem lateAnswer_breaks_alignment :
  exists w w',
    run initialWorld (removelast lateAnswer) = Some w
    /\ questions (state w) = Some [q2]
    /\ aligned (state w)
    /\ step w (Settle 0 (Evaluated correct)) = Some w'
    /\ run initialWorld lateAnswer = Some w'
    /\ questions (state w') = Some [q2]
    /\ List.length (userAnswers (state w')) = 1%nat
    /\ List.length (evaluationResults (state w')) = 2%nat
    /\ List.length (isEvaluating (state w')) = 2%nat
    /\ ~ aligned (state w').
Proof.
  do 2 eexists.
  split; [vm_compute; reflexivity |].
  split; [reflexivity |].
  split; [cbv; auto |].
  split; [vm_compute; reflexivity |].
  split; [vm_compute; reflexivity |].
  repeat (split; [reflexivity |]).
  cbv. intros (_ & H & _). discriminate H.
Qed.

(** C7 fails on [lateState]: its only question has a result at index 0,
    yet [allAnswersEvaluated] is false, because the test runs over the two
    slots of [evaluationResults] and the second is [null]. *)
Lemma allAnswersEvaluated_not_per_question :
  ~ (allAnswersEvaluated lateState = true <-> every_question_evaluated lateState).
Proof.
  intros [_ Back].
  assert (E : every_question_evaluated lateState).
  { exists q2, []. split; [reflexivity |].
    intros [| i] Lt; [eexists; reflexivity | cbn in Lt; lia]. }
  specialize (Back E). discriminate Back.
Qed.

(** ** Further properties of the handlers *)

Lemma get_fill {A : Type} (n i : nat) (v : A) :
  (i < n)%nat -> Js.get (Js.fill n v) i = Some v.
Proof.
  unfold Js.fill. revert i. induction n as [| n IH]; intros i Lt; [lia |].
  destruct i as [| i]; [reflexivity |].
  cbn [repeat]. rewrite get_cons. apply IH. lia.
Qed.

Lemma get_fill_inv {A : Type} (n i : nat) (v x : A) :
  Js.get (Js.fill n v) i = Some x -> x = v /\ (i < n)%nat.
Proof.
  unfold Js.fill. revert i. induction n as [| n IH]; intros i G.
  - cbn [repeat] in G. rewrite get_nil in G. discriminate G.
  - destruct i as [| i].
    + cbn in G. inversion G. split; [reflexivity | lia].
    + cbn [repeat] in G. rewrite get_cons in G.
      destruct (IH i G). split; [assumption | lia].
Qed.

Lemma set_get_same {A : Type} (arr : Js.array A) (i : nat) (v : A) :
  Js.get arr i = Some v -> Js.set arr i v = arr.
Proof.
  revert arr. induction i as [| i IH]; intros [| slot rest] G.
  - discriminate G.
  - cbn in G. subst slot. reflexivity.
  - rewrite get_nil in G. discriminate G.
  - rewrite get_cons in G. cbn [Js.set]. rewrite (IH rest G). reflexivity.
Qed.

(** When the generator delivers a non-empty list, from whatever state:
    no alert is shown, the list is stored, loading ends, the score is
    zero, the content and the count are kept, the arrays are aligned and
    every question starts with the empty answer, a [null] result and a
    cleared flag; the quiz does not count as complete and no submit
    button can be pressed before an answer is chosen. *)
Theorem generation_success_initialises (s : State) (q : Question) (qs : list Question) :
  let r := handleGenerateQuestions_resume s (GenerateResolved (Some (Some (q :: qs)))) in
  let s' := fst r in
  snd r = []
  /\ questions s' = Some (q :: qs)
  /\ isLoading s' = false
  /\ score s' = 0
  /\ pdfContent s' = pdfContent s
  /\ isPdfUploaded s' = isPdfUploaded s
  /\ questionCount s' = questionCount s
  /\ aligned s'
  /\ (forall i, (i < List.length (q :: qs))%nat ->
        Js.get (userAnswers s') i = Some ""
        /\ Js.get (evaluationResults s') i = Some None
        /\ Js.get (isEvaluating s') i = Some false
        /\ Ui.submit_enabled s' i = false)
  /\ allAnswersEvaluated s' = false.
Proof.
  cbn zeta.
  pose proof (handleGenerateQuestions_resume_aligned s
                (GenerateResolved (Some (Some (q :: qs))))) as Al.
  unfold handleGenerateQuestions_resume in *. cbn [generate_try fst snd] in *.
  repeat (split; [reflexivity || exact Al |]).
  split; [| reflexivity].
  intros i Lt. cbn [userAnswers evaluationResults isEvaluating setIsLoading
                      setScore setIsEvaluating setEvaluationResults setUserAnswers
                      setQuestions].
  assert (U : Js.get (Js.fill (List.length (q :: qs)) "") i = Some "")
    by (apply get_fill; exact Lt).
  repeat split; try (apply get_fill; exact Lt).
  unfold Ui.submit_enabled, Ui.submit_disabled.
  destruct (Ui.card _ i); [| reflexivity].
  cbn [userAnswers setIsLoading setScore setIsEvaluating setEvaluationResults
         setUserAnswers setQuestions].
  rewrite U. reflexivity.
Qed.

Lemma handleSubmitAnswer_start_cases (s : State) (index : nat) :
  (snd (handleSubmitAnswer_start s index) = None
   <-> Js.falsy_string (pdfContent s) = true
       \/ Ui.card s index = None
       \/ Js.falsy_string (Js.get (userAnswers s) index) = true)
  /\ (snd (handleSubmitAnswer_start s index) = None ->
      fst (handleSubmitAnswer_start s index) = s)
  /\ (forall c, snd (handleSubmitAnswer_start s index) = Some c ->
      fst (handleSubmitAnswer_start s index)
      = setIsEvaluating (Js.set (isEvaluating s) index true) s
      /\ closure_index c = index
      /\ closure_evaluationResults c = evaluationResults s
      /\ closure_isEvaluating c = isEvaluating s
      /\ Some (ev_pdfContent (closure_input c)) = pdfContent s
      /\ Some (ev_userAnswer (closure_input c)) = Js.get (userAnswers s) index
      /\ exists q, Ui.card s index = Some q
                   /\ ev_question (closure_input c) = question q
                   /\ ev_correctAnswer (closure_input c) = answer q).
Proof.
  unfold handleSubmitAnswer_start, Ui.card.
  destruct (pdfContent s) as [[| p content] |];
    destruct (questions s) as [qs |];
    destruct (Js.get (userAnswers s) index) as [[| a ua] |];
    try destruct (nth_error qs index) as [q |];
    cbn;
    (split;
     [split; [intros E; (discriminate E || auto) | intros [F | [F | F]]; congruence] |]);
    (split; [intros E; (discriminate E || reflexivity) |]);
    intros c E; inversion E; subst; cbn; repeat split; eauto.
Qed.

(** [handleSubmitAnswer] returns before doing anything exactly when the
    content is missing or empty, or there is no question at the index, or
    no non-empty answer at the index; the state is then untouched and no
    call is made.  Otherwise only the evaluating flag of the index is
    set, and the call is made for that index with the arrays of the
    present state captured. *)
Theorem handleSubmitAnswer_preconditions (s : State) (index : nat) :
  (snd (handleSubmitAnswer_start s index) = None
   <-> Js.falsy_string (pdfContent s) = true
       \/ Ui.card s index = None
       \/ Js.falsy_string (Js.get (userAnswers s) index) = true)
  /\ (snd (handleSubmitAnswer_start s index) = None ->
      fst (handleSubmitAnswer_start s index) = s)
  /\ (forall c, snd (handleSubmitAnswer_start s index) = Some c ->
      fst (handleSubmitAnswer_start s index)
      = setIsEvaluating (Js.set (isEvaluating s) index true) s
      /\ closure_index c = index
      /\ closure_evaluationResults c = evaluationResults s
      /\ closure_isEvaluating c = isEvaluating s
      /\ Some (ev_pdfContent (closure_input c)) = pdfContent s
      /\ Some (ev_userAnswer (closure_input c)) = Js.get (userAnswers s) index
      /\ exists q, Ui.card s index = Some q
                   /\ ev_question (closure_input c) = question q
                   /\ ev_correctAnswer (closure_input c) = answer q).
Proof. exact (handleSubmitAnswer_start_cases s index). Qed.

(** An evaluation that returns before anything else happens, the flag of
    the index having been [false] at submission: on a failure the session
    is exactly what it was before the submission; on a numeric score it
    differs from it only by the result stored at the index and by the
    score, one higher when the score received is 1. *)
Theorem evaluation_returning_at_once
    (s s1 : State) (index : nat) (c : SubmitClosure) (outcome : EvaluateOutcome) :
  handleSubmitAnswer_start s index = (s1, Some c) ->
  Js.get (isEvaluating s) index = Some false ->
  let s2 := fst (handleSubmitAnswer_resume s1 c outcome) in
  (evaluation_failed outcome = true -> s2 = s)
  /\ (forall evaluation,
        outcome = EvaluateResolved evaluation ->
        Js.is_number (optional_score evaluation) = true ->
        s2 = setScore
               (fun prevScore =>
                  if Js.is_one (optional_score evaluation)
                  then prevScore + 1 else prevScore)
               (setEvaluationResults
                  (Js.set (evaluationResults s) index evaluation) s)).
Proof.
  intros Start Flag.
  destruct (handleSubmitAnswer_start_cases s index) as (_ & _ & Some_).
  rewrite Start in Some_. destruct (Some_ c eq_refl) as (S1 & I & R & E & _).
  cbn [fst] in S1. cbn zeta. split.
  - intros Failed. destruct (submit_try_failed s1 c outcome Failed) as [msg Try].
    unfold handleSubmitAnswer_resume. rewrite Try. cbn [submit_catch fst].
    unfold submit_finally. rewrite E, I, (set_get_same _ _ _ Flag).
    subst s1. destruct s; reflexivity.
  - intros evaluation -> Number.
    unfold handleSubmitAnswer_resume, submit_try. rewrite Number. cbn [negb].
    rewrite R, I.
    destruct (Js.is_one (optional_score evaluation)); cbn [fst];
      unfold submit_finally; rewrite E, I, (set_get_same _ _ _ Flag);
      subst s1; destruct s; reflexivity.
Qed.

Lemma evaluation_returning_at_once_witness :
  fst (handleSubmitAnswer_resume firstSubmitted firstClosure
         (EvaluateRejected "network down"))
  = selectAnswer quizReady 0 "2"
  /\ score (fst (handleSubmitAnswer_resume firstSubmitted firstClosure correct)) = 1.
Proof.
  destruct (evaluation_returning_at_once (selectAnswer quizReady 0 "2")
              firstSubmitted 0 firstClosure (EvaluateRejected "network down")
              eq_refl eq_refl) as [Failure _].
  destruct (evaluation_returning_at_once (selectAnswer quizReady 0 "2")
              firstSubmitted 0 firstClosure correct eq_refl eq_refl)
    as [_ Success].
  split.
  - apply Failure. reflexivity.
  - rewrite (Success _ eq_refl eq_refl). reflexivity.
Defined.

Lemma handleSubmitAnswer_preconditions_witness :
  fst (handleSubmitAnswer_start quizReady 0) = quizReady
  /\ closure_index firstClosure = 0%nat.
Proof.
  split.
  - apply (proj1 (proj2 (handleSubmitAnswer_preconditions quizReady 0))).
    reflexivity.
  - apply (proj2 (proj2 (handleSubmitAnswer_preconditions
                           (selectAnswer quizReady 0 "2") 0)) firstClosure).
    reflexivity.
Defined.

(** ** The alerts of the two [catch] blocks *)

Lemma prefix_occurs (sub s : string) :
  String.prefix sub s = true <-> exists after, s = sub ++ after.
Proof.
  revert s. induction sub as [| c sub IH]; intros s.
  - destruct s; cbn; split; eauto.
  - destruct s as [| d s]; cbn.
    + split; [discriminate | intros [after E]; discriminate E].
    + destruct (Ascii.ascii_dec c d) as [-> | Neq].
      * rewrite IH. split; intros [after E]; exists after; congruence.
      * split; [discriminate | intros [after E]; congruence].
Qed.

Lemma includes_occurs (s sub : string) :
  Js.includes s sub = true <-> occurs_in sub s.
Proof.
  unfold occurs_in. induction s as [| c s IH]; cbn [Js.includes];
    rewrite orb_true_iff, prefix_occurs.
  - split.
    + intros [[after E] | F]; [exists "", after; exact E | discriminate F].
    + intros ([| b before] & after & E); [left; eauto | discriminate E].
  - rewrite IH. split.
    + intros [[after E] | (before & after & E)].
      * exists "", after. exact E.
      * exists (String c before), after. cbn. congruence.
    + intros ([| b before] & after & E).
      * left. eauto.
      * right. cbn in E. inversion E. eauto.
Qed.

Lemma isRateLimit_mentions (errorMessage : string) :
  isRateLimit errorMessage = true <-> mentions_rate_limit errorMessage.
Proof.
  unfold isRateLimit, mentions_rate_limit.
  rewrite !orb_true_iff, !includes_occurs. tauto.
Qed.

Lemma isRateLimit_decided (errorMessage : string) :
  (mentions_rate_limit errorMessage /\ isRateLimit errorMessage = true)
  \/ (~ mentions_rate_limit errorMessage /\ isRateLimit errorMessage = false).
Proof.
  destruct (isRateLimit errorMessage) eqn:E.
  - left. split; [apply isRateLimit_mentions; exact E | reflexivity].
  - right. split; [| reflexivity].
    intros M. apply isRateLimit_mentions in M. congruence.
Qed.

(** A failed generation shows exactly one alert.  After a rejection it is
    the rate-limit alert when "429", "Too Many Requests" or "QuotaFailure"
    occurs anywhere in the error message, and else the failure alert
    quoting the message.  When the generator delivers nothing or no
    questions it is the failure alert quoting the fixed explanation, never
    the rate-limit one. *)
Theorem generation_failure_alert (s : State) :
  (forall errorMessage,
     mentions_rate_limit errorMessage ->
     snd (handleGenerateQuestions_resume s (GenerateRejected errorMessage))
     = ["API rate limit exceeded while generating questions. Please wait a moment and try again, or reduce the number of questions. Check your Google AI plan for details."])
  /\ (forall errorMessage,
        ~ mentions_rate_limit errorMessage ->
        snd (handleGenerateQuestions_resume s (GenerateRejected errorMessage))
        = ["Failed to generate questions: " ++ errorMessage ++ ". Please try again."])
  /\ (forall questionnaire,
        generation_failed (GenerateResolved questionnaire) = true ->
        snd (handleGenerateQuestions_resume s (GenerateResolved questionnaire))
        = ["Failed to generate questions: No questions were generated. The PDF might be empty, contain only images, or the content might not be suitable for question generation.. Please try again."]).
Proof.
  unfold handleGenerateQuestions_resume, generate_catch.
  split; [| split]; cbn [generate_try snd].
  - intros msg M. destruct (isRateLimit_decided msg) as [[_ ->] | [N _]];
      [reflexivity | contradiction].
  - intros msg N. destruct (isRateLimit_decided msg) as [[M _] | [_ ->]];
      [contradiction | reflexivity].
  - intros [[[| q qs] |] |] F; try discriminate F; reflexivity.
Qed.

Lemma generation_failure_alert_witness :
  snd (handleGenerateQuestions_resume fileReady
         (GenerateRejected "[GoogleGenerativeAI Error]: [429 Too Many Requests]"))
  = ["API rate limit exceeded while generating questions. Please wait a moment and try again, or reduce the number of questions. Check your Google AI plan for details."]
  /\ snd (handleGenerateQuestions_resume fileReady (GenerateRejected "fetch failed"))
     = ["Failed to generate questions: fetch failed. Please try again."]
  /\ List.length (snd (handleGenerateQuestions_resume fileReady
                         (GenerateResolved (Some (Some []))))) = 1%nat.
Proof.
  split; [| split].
  - apply (proj1 (generation_failure_alert fileReady)).
    left. exists "[GoogleGenerativeAI Error]: [", " Too Many Requests]". reflexivity.
  - apply (proj1 (proj2 (generation_failure_alert fileReady))).
    intros M. apply isRateLimit_mentions in M. discriminate M.
  - rewrite (proj2 (proj2 (generation_failure_alert fileReady))); reflexivity.
Defined.

(** A rejected evaluation shows exactly one alert: the rate-limit alert
    when one of the three markers occurs in the error message, else the
    failure alert quoting the message.  Nothing but the evaluating flags
    changes in the state. *)
Theorem evaluation_rejection_alert
    (s : State) (c : SubmitClosure) (errorMessage : string) :
  let r := handleSubmitAnswer_resume s c (EvaluateRejected errorMessage) in
  fst r = submit_finally s c
  /\ (mentions_rate_limit errorMessage ->
      snd r = ["API rate limit exceeded while evaluating answer. Please wait a moment and try again. Check your Google AI plan for details."])
  /\ (~ mentions_rate_limit errorMessage ->
      snd r = ["Failed to evaluate answer: " ++ errorMessage ++ ". Please check the console for details."]).
Proof.
  cbn zeta. unfold handleSubmitAnswer_resume, submit_catch. cbn [submit_try fst snd].
  split; [reflexivity |].
  destruct (isRateLimit_decided errorMessage) as [[M ->] | [N ->]];
    split; intros H; (reflexivity || contradiction).
Qed.

Lemma evaluation_rejection_alert_witness :
  snd (handleSubmitAnswer_resume firstSubmitted firstClosure
         (EvaluateRejected "QuotaFailure: limit reached"))
  = ["API rate limit exceeded while evaluating answer. Please wait a moment and try again. Check your Google AI plan for details."]
  /\ snd (handleSubmitAnswer_resume firstSubmitted firstClosure
            (EvaluateRejected "timeout"))
     = ["Failed to evaluate answer: timeout. Please check the console for details."].
Proof.
  split.
  - apply (proj1 (proj2 (evaluation_rejection_alert firstSubmitted firstClosure
                           "QuotaFailure: limit reached"))).
    right. right. exists "", ": limit reached". reflexivity.
  - apply (proj2 (proj2 (evaluation_rejection_alert firstSubmitted firstClosure
                           "timeout"))).
    intros M. apply isRateLimit_mentions in M. discriminate M.
Defined.

(** ** Numerals in the question-count field *)

Ltac each_char c :=
  let b0 := fresh "b" in let b1 := fresh "b" in let b2 := fresh "b" in
  let b3 := fresh "b" in let b4 := fresh "b" in let b5 := fresh "b" in
  let b6 := fresh "b" in let b7 := fresh "b" in
  destruct c as [b0 b1 b2 b3 b4 b5 b6 b7];
  destruct b0, b1, b2, b3, b4, b5, b6, b7.

Lemma digit_value_of_digit (d : nat) :
  (d < 10)%nat -> Js.digit_value (ascii_of_nat (48 + d)) = Some (Z.of_nat d).
Proof. intros Lt. do 10 (destruct d as [| d]; [reflexivity |]). lia. Qed.

Lemma numeral_value_nonneg (ds : list nat) (acc : Z) :
  0 <= acc -> 0 <= numeral_value ds acc.
Proof.
  revert acc. induction ds as [| d ds IH]; intros acc Pos; cbn; [exact Pos |].
  apply IH. lia.
Qed.

Lemma read_digits_numeral (ds : list nat) (tail : string) (seen : bool) (acc : Z) :
  Forall (fun d => (d < 10)%nat) ds ->
  ends_numeral tail = true ->
  seen = true \/ ds <> [] ->
  Js.read_digits 10 (numeral ds ++ tail) seen acc = Some (numeral_value ds acc).
Proof.
  intros Digits End. revert seen acc.
  induction Digits as [| d ds Lt Digits IH]; intros seen acc Seen.
  - destruct Seen as [-> | Absurd]; [| congruence].
    cbn [numeral append numeral_value].
    destruct tail as [| c tail]; [reflexivity |].
    cbn [Js.read_digits]. cbn [ends_numeral] in End.
    destruct (Js.digit_value c) as [v |]; [| reflexivity].
    apply Z.leb_le in End. destruct (v <? 10)%Z eqn:V; [| reflexivity].
    apply Z.ltb_lt in V. lia.
  - cbn [numeral append numeral_value Js.read_digits].
    rewrite (digit_value_of_digit d Lt).
    replace (Z.of_nat d <? 10)%Z with true by (symmetry; apply Z.ltb_lt; lia).
    apply IH. left. reflexivity.
Qed.

(** After a character that is no white space, no sign and not the zero of
    a radix prefix, [parseInt] reads decimal digits from the start. *)
Lemma parseInt_plain (c : ascii) (rest : string) :
  Js.is_white_space c = false ->
  c <> "-"%char -> c <> "+"%char ->
  (c = "0"%char ->
   forall x tail, rest = String x tail -> x <> "x"%char /\ x <> "X"%char) ->
  Js.parseInt (String c rest)
  = option_map (Z.mul 1) (Js.read_digits 10 (String c rest) false 0).
Proof.
  intros White Minus Plus Zero. unfold Js.parseInt. cbn [Js.trim_start].
  rewrite White.
  each_char c; try reflexivity; try congruence.
  destruct rest as [| x tail]; [reflexivity |].
  destruct (Zero eq_refl x tail eq_refl) as [Lower Upper].
  each_char x; try reflexivity; congruence.
Qed.

(** After a minus sign the same digits are read and negated. *)
Lemma parseInt_minus (c : ascii) (rest : string) :
  (c = "0"%char ->
   forall x tail, rest = String x tail -> x <> "x"%char /\ x <> "X"%char) ->
  Js.parseInt (String "-" (String c rest))
  = option_map (Z.mul (-1)) (Js.read_digits 10 (String c rest) false 0).
Proof.
  intros Zero. unfold Js.parseInt. cbn [Js.trim_start Js.is_white_space].
  change (Js.is_white_space "-") with false. cbv iota.
  each_char c; try reflexivity.
  destruct rest as [| x tail]; [reflexivity |].
  destruct (Zero eq_refl x tail eq_refl) as [Lower Upper].
  each_char x; try reflexivity; congruence.
Qed.

Lemma digit_char_plain (d : nat) :
  (d < 10)%nat ->
  let c := ascii_of_nat (48 + d) in
  Js.is_white_space c = false /\ c <> "-"%char /\ c <> "+"%char
  /\ c <> "x"%char /\ c <> "X"%char.
Proof.
  intros Lt. do 10 (destruct d as [| d]; [repeat split; discriminate |]). lia.
Qed.

Lemma ends_numeral_no_prefix (x : ascii) (tail : string) :
  ends_numeral (String x tail) = true -> x <> "x"%char /\ x <> "X"%char.
Proof. split; intros ->; discriminate H. Qed.

Lemma numeral_no_prefix (ds : list nat) (tail : string) :
  Forall (fun d => (d < 10)%nat) ds ->
  ends_numeral tail = true ->
  forall x t, numeral ds ++ tail = String x t -> x <> "x"%char /\ x <> "X"%char.
Proof.
  intros Digits End x t E. destruct Digits as [| d ds Lt _].
  - cbn in E. subst tail. apply (ends_numeral_no_prefix _ _ End).
  - cbn [numeral append] in E. inversion E; subst.
    apply (digit_char_plain d Lt).
Qed.

(** Typing a decimal numeral, possibly followed by a fraction part or
    other text that starts with neither a digit nor an x, stores the value
    of the numeral clamped to 1..20; so a numeral from 1 to 20 is stored
    as it is, and zero is stored as 1.  With a minus sign in front the
    count stored is 1. *)
Theorem questionCount_of_numeral (s : State) (ds : list nat) (tail : string) :
  ds <> [] ->
  Forall (fun d => (d < 10)%nat) ds ->
  ends_numeral tail = true ->
  let n := numeral_value ds 0 in
  questionCount (questionCount_onChange s (numeral ds ++ tail))
  = Z.max 1 (Z.min 20 n)
  /\ (1 <= n <= 20 ->
      questionCount (questionCount_onChange s (numeral ds ++ tail)) = n)
  /\ questionCount (questionCount_onChange s ("-" ++ numeral ds ++ tail)) = 1.
Proof.
  intros Nonempty Digits End n.
  assert (Read : Js.read_digits 10 (numeral ds ++ tail) false 0 = Some n)
    by (apply read_digits_numeral; auto).
  assert (Pos : 0 <= n) by (apply numeral_value_nonneg; lia).
  clearbody n.
  destruct ds as [| d ds]; [congruence |].
  inversion Digits as [| ? ? Lt Digits']; subst.
  destruct (digit_char_plain d Lt) as (White & Minus & Plus & _).
  cbn [numeral append] in *.
  assert (Plain : Js.parseInt (String (ascii_of_nat (48 + d)) (numeral ds ++ tail))
                  = Some n).
  { rewrite parseInt_plain, Read; auto.
    - cbn [option_map]. f_equal. lia.
    - intros _. apply numeral_no_prefix; assumption. }
  assert (Negative :
            Js.parseInt (String "-" (String (ascii_of_nat (48 + d)) (numeral ds ++ tail)))
            = Some (- n)).
  { rewrite parseInt_minus, Read.
    - cbn [option_map]. f_equal; lia.
    - intros _. apply numeral_no_prefix; assumption. }
  assert (Stored : questionCount
                     (questionCount_onChange s
                        (String (ascii_of_nat (48 + d)) (numeral ds ++ tail)))
                   = Z.max 1 (Z.min 20 n)).
  { cbn [questionCount_onChange setQuestionCount questionCount].
    rewrite Plain. destruct n; cbn [Js.or_one]; lia. }
  split; [exact Stored |]. split.
  - intros Range. rewrite Stored. lia.
  - cbn [questionCount_onChange setQuestionCount questionCount].
    rewrite Negative. destruct n; cbn [Js.or_one Z.opp]; lia.
Qed.

Lemma questionCount_of_numeral_witness :
  questionCount (questionCount_onChange initialState "17.5") = 17
  /\ questionCount (questionCount_onChange initialState "0250") = 20
  /\ questionCount (questionCount_onChange initialState "-17.5") = 1.
Proof.
  assert (Seventeen : Forall (fun d => (d < 10)%nat) [1; 7]%nat)
    by (repeat constructor; lia).
  assert (Padded : Forall (fun d => (d < 10)%nat) [0; 2; 5; 0]%nat)
    by (repeat constructor; lia).
  split; [| split].
  - apply (proj1 (proj2 (questionCount_of_numeral initialState [1; 7]%nat ".5"
                           ltac:(discriminate) Seventeen eq_refl))).
    cbn. lia.
  - apply (proj1 (questionCount_of_numeral initialState [0; 2; 5; 0]%nat ""
                    ltac:(discriminate) Padded eq_refl)).
  - apply (proj2 (proj2 (questionCount_of_numeral initialState [1; 7]%nat ".5"
                           ltac:(discriminate) Seventeen eq_refl))).
Defined.

(** ** The invariant of the running component *)

Lemma loaders_app (ps : list Pending) (p : Pending) :
  loaders (ps ++ [p])%list
  = (loaders ps ++ (if is_loader p then [p] else []))%list.
Proof.
  unfold loaders. rewrite filter_app. cbn. destruct (is_loader p); reflexivity.
Qed.

Lemma loaders_remove (ps : list Pending) (k : nat) (p : Pending) :
  nth_error ps k = Some p ->
  if is_loader p
  then exists l1 l2, loaders ps = (l1 ++ p :: l2)%list
                     /\ loaders (remove_nth k ps) = (l1 ++ l2)%list
  else loaders (remove_nth k ps) = loaders ps.
Proof.
  revert k. induction ps as [| x ps IH]; intros [| k] N; try discriminate N.
  - cbn in N. inversion N; subst. cbn. destruct (is_loader p) eqn:L.
    + exists [], (loaders ps). split; reflexivity.
    + reflexivity.
  - cbn in N. specialize (IH k N). cbn [remove_nth loaders filter].
    destruct (is_loader p).
    + destruct IH as (l1 & l2 & E1 & E2). fold (loaders ps).
      fold (loaders (remove_nth k ps)). rewrite E1, E2.
      destruct (is_loader x).
      * exists (x :: l1), l2. split; reflexivity.
      * exists l1, l2. split; reflexivity.
    + fold (loaders ps). fold (loaders (remove_nth k ps)). rewrite IH. reflexivity.
Qed.

Lemma In_remove_nth {A : Type} (x : A) (k : nat) (l : list A) :
  In x (remove_nth k l) -> In x l.
Proof.
  revert k. induction l as [| y l IH]; intros [| k] H; cbn in *; auto.
  destruct H as [-> | H]; eauto.
Qed.

Lemma loader_state_idle (w : World) :
  loader_state w -> isLoading (state w) = false -> loaders (pending w) = [].
Proof.
  unfold loader_state.
  destruct (loaders (pending w)) as [| [| | input | c] [| p l]]; intros L Idle;
    try reflexivity; try contradiction; destruct L as [Busy _]; congruence.
Qed.

Lemma loader_state_questions (w : World) :
  loader_state w -> questions (state w) <> None -> loaders (pending w) = [].
Proof.
  unfold loader_state.
  destruct (loaders (pending w)) as [| [| | input | c] [| p l]]; intros L Q;
    try reflexivity; try contradiction; destruct L as (_ & None_ & _); congruence.
Qed.

Lemma loader_state_single (w : World) (l1 l2 : list Pending) (p : Pending) :
  loader_state w -> loaders (pending w) = (l1 ++ p :: l2)%list ->
  l1 = [] /\ l2 = [].
Proof.
  unfold loader_state. intros L E. rewrite E in L.
  destruct l1 as [| [| | i1 | c1] [| y l1]]; destruct l2 as [| z l2];
    cbn in L; try contradiction; try (split; reflexivity);
    destruct p; contradiction.
Qed.

Lemma settle_loader (w : World) (k : nat) (p : Pending) :
  loader_state w -> nth_error (pending w) k = Some p -> is_loader p = true ->
  loaders (pending w) = [p] /\ loaders (remove_nth k (pending w)) = [].
Proof.
  intros L N Is. pose proof (loaders_remove _ _ _ N) as R. rewrite Is in R.
  destruct R as (l1 & l2 & E1 & E2).
  destruct (loader_state_single w l1 l2 p L E1) as [-> ->]. auto.
Qed.

Lemma settle_evaluation (w : World) (k : nat) (c : SubmitClosure) :
  nth_error (pending w) k = Some (Evaluating c) ->
  loaders (remove_nth k (pending w)) = loaders (pending w).
Proof. intros N. exact (loaders_remove _ _ _ N). Qed.

Lemma numeric_results_nil : numeric_results [].
Proof. intros i e G. rewrite get_nil in G. discriminate G. Qed.

Lemma numeric_results_fill (n : nat) : numeric_results (Js.fill n None).
Proof. intros i e G. apply get_fill_inv in G. destruct G as [G _]. discriminate G. Qed.

Lemma numeric_results_set
    (arr : Js.array (option EvaluationResult)) (i : nat)
    (evaluation : option EvaluationResult) :
  numeric_results arr ->
  Js.is_number (optional_score evaluation) = true ->
  numeric_results (Js.set arr i evaluation).
Proof.
  intros Arr Number j e G. destruct (Nat.eq_dec i j) as [<- | Neq].
  - rewrite get_set_same in G. inversion G; subst. exact Number.
  - rewrite get_set_other in G by exact Neq. eapply Arr; eauto.
Qed.

(** The state reached by [handleClear], with computations in flight that
    hold no loader, satisfies the invariant. *)
Lemma Inv_cleared (w : World) (ps : list Pending) (shown : list string) :
  Inv w -> loaders ps = [] ->
  (forall c, In (Evaluating c) ps -> In (Evaluating c) (pending w)) ->
  Inv {| state := handleClear (state w); pending := ps; alerts := shown |}.
Proof.
  intros I L Sub. constructor; cbn [state pending alerts].
  - unfold loader_state. cbn [state pending]. rewrite L. reflexivity.
  - cbn. split; [discriminate | congruence].
  - cbn. congruence.
  - reflexivity.
  - apply numeric_results_nil.
  - intros c In_. apply (inv_closures w I). auto.
  - cbn. lia.
Qed.

Lemma loader_state_same (w w' : World) :
  loaders (pending w') = loaders (pending w) ->
  isLoading (state w') = isLoading (state w) ->
  questions (state w') = questions (state w) ->
  pdfContent (state w') = pdfContent (state w) ->
  isPdfUploaded (state w') = isPdfUploaded (state w) ->
  loader_state w -> loader_state w'.
Proof.
  unfold loader_state. intros -> -> -> -> ->. auto.
Qed.

Lemma answers_follow_same (s s' : State) :
  questions s' = questions s -> userAnswers s' = userAnswers s ->
  answers_follow_questions s -> answers_follow_questions s'.
Proof. unfold answers_follow_questions. intros -> ->. auto. Qed.

(** A change that leaves the content and the questions alone. *)
Lemma Inv_frame (w w' : World) :
  Inv w ->
  loader_state w' ->
  questions (state w') = questions (state w) ->
  pdfContent (state w') = pdfContent (state w) ->
  isPdfUploaded (state w') = isPdfUploaded (state w) ->
  answers_follow_questions (state w') ->
  numeric_results (evaluationResults (state w')) ->
  (forall c, In (Evaluating c) (pending w') ->
             numeric_results (closure_evaluationResults c)) ->
  0 <= score (state w') ->
  Inv w'.
Proof.
  intros I L Q P U A R C S. constructor; auto.
  - rewrite U, P. apply (inv_uploaded w I).
  - rewrite Q, U, P. apply (inv_content w I).
Qed.

Lemma closures_app (ps : list Pending) (p : Pending) :
  (forall c, In (Evaluating c) ps -> numeric_results (closure_evaluationResults c)) ->
  (forall c, p = Evaluating c -> numeric_results (closure_evaluationResults c)) ->
  forall c, In (Evaluating c) (ps ++ [p])%list ->
            numeric_results (closure_evaluationResults c).
Proof.
  intros Old New c In_. apply in_app_or in In_. destruct In_ as [In_ | [E | []]]; auto.
Qed.

Lemma closures_remove (ps : list Pending) (k : nat) :
  (forall c, In (Evaluating c) ps -> numeric_results (closure_evaluationResults c)) ->
  forall c, In (Evaluating c) (remove_nth k ps) ->
            numeric_results (closure_evaluationResults c).
Proof. intros Old c In_. apply Old. eapply In_remove_nth; eauto. Qed.

Lemma Inv_initial : Inv initialWorld.
Proof.
  constructor; cbn.
  - reflexivity.
  - split; [discriminate | congruence].
  - congruence.
  - reflexivity.
  - apply numeric_results_nil.
  - intros c [].
  - lia.
Qed.

Lemma Inv_ChooseFile (w : World) (path : string) :
  Inv w -> isLoading (state w) = false ->
  Inv {| state := handleFileUpload (setFileInputValue path (state w));
         pending := (pending w ++ [ReadingBuffer])%list;
         alerts := alerts w |}.
Proof.
  intros I Idle.
  pose proof (loader_state_idle w (inv_loader w I) Idle) as L.
  constructor; cbn [state pending].
  - unfold loader_state. cbn [state pending]. rewrite loaders_app, L.
    cbn. auto.
  - cbn. split; [discriminate | congruence].
  - cbn. congruence.
  - reflexivity.
  - apply numeric_results_nil.
  - apply closures_app; [apply (inv_closures w I) | discriminate].
  - cbn. lia.
Qed.

Lemma Inv_ClickGenerate (w : World) :
  Inv w ->
  Ui.generate_disabled (state w) = false ->
  Inv {| state := fst (handleGenerateQuestions_start (state w));
         pending := match snd (handleGenerateQuestions_start (state w)) with
                    | Some i => (pending w ++ [Generating i])%list
                    | None => pending w
                    end;
         alerts := alerts w |}.
Proof.
  intros I Enabled. unfold Ui.generate_disabled in Enabled.
  apply orb_false_iff in Enabled. destruct Enabled as [Up Idle].
  apply negb_false_iff in Up.
  pose proof (loader_state_idle w (inv_loader w I) Idle) as L.
  unfold handleGenerateQuestions_start.
  destruct (pdfContent (state w)) as [[| c content] |] eqn:P; cbn [fst snd];
    try (destruct w; exact I).
  constructor; cbn [state pending].
  - unfold loader_state. cbn [state pending]. rewrite loaders_app, L.
    cbn. rewrite P, Up. repeat split.
  - cbn. rewrite P, Up. split; [discriminate | reflexivity].
  - cbn. congruence.
  - reflexivity.
  - apply numeric_results_nil.
  - apply closures_app; [apply (inv_closures w I) | discriminate].
  - cbn. lia.
Qed.

Lemma Inv_SelectOption (w : World) (i : nat) (v : string) :
  Inv w -> Ui.radio_enabled (state w) i v = true ->
  Inv {| state := handleAnswerChange (state w) i v;
         pending := pending w; alerts := alerts w |}.
Proof.
  intros I Enabled. unfold Ui.radio_enabled in Enabled.
  destruct (Ui.card (state w) i) as [q |] eqn:Card; [| discriminate].
  apply andb_true_iff in Enabled. destruct Enabled as [Enabled _].
  apply andb_true_iff in Enabled. destruct Enabled as [_ Offered].
  apply existsb_exists in Offered. destruct Offered as (o & In_ & Eq).
  apply String.eqb_eq in Eq. subst o.
  apply (Inv_frame w _ I); cbn [state pending]; try reflexivity.
  - apply (loader_state_same w); try reflexivity. apply (inv_loader w I).
  - pose proof (inv_answers w I) as A. unfold answers_follow_questions in *.
    unfold Ui.card in Card. cbn.
    destruct (questions (state w)) as [qs |]; [| discriminate].
    destruct A as [Len Each].
    assert (Lt : (i < List.length qs)%nat) by (apply nth_error_Some; congruence).
    split; [rewrite set_length; lia |].
    intros j q' N. destruct (Nat.eq_dec i j) as [<- | Neq].
    + rewrite get_set_same. exists v. split; [reflexivity |].
      right. assert (q' = q) by congruence. subst q'. exact In_.
    + rewrite get_set_other by exact Neq. auto.
  - apply (inv_results w I).
  - apply (inv_closures w I).
  - apply (inv_score w I).
Qed.

Lemma Inv_ClickSubmit (w : World) (i : nat) :
  Inv w ->
  Inv {| state := fst (handleSubmitAnswer_start (state w) i);
         pending := match snd (handleSubmitAnswer_start (state w) i) with
                    | Some c => (pending w ++ [Evaluating c])%list
                    | None => pending w
                    end;
         alerts := alerts w |}.
Proof.
  intros I.
  destruct (handleSubmitAnswer_start_cases (state w) i) as (_ & Skip & Started).
  destruct (snd (handleSubmitAnswer_start (state w) i)) as [c |].
  - destruct (Started c eq_refl) as (S1 & _ & R & _). rewrite S1.
    apply (Inv_frame w _ I); cbn [state pending]; try reflexivity.
    + apply (loader_state_same w); try reflexivity; [| apply (inv_loader w I)].
      cbn [pending]. rewrite loaders_app. cbn. apply app_nil_r.
    + apply (answers_follow_same (state w)); try reflexivity.
      apply (inv_answers w I).
    + apply (inv_results w I).
    + apply closures_app; [apply (inv_closures w I) |].
      intros c' E. inversion E; subst. rewrite R. apply (inv_results w I).
    + apply (inv_score w I).
  - rewrite (Skip eq_refl). destruct w; exact I.
Qed.

Lemma Inv_evaluated (w : World) (k : nat) (c : SubmitClosure) (outcome : EvaluateOutcome) :
  Inv w -> nth_error (pending w) k = Some (Evaluating c) ->
  Inv {| state := fst (handleSubmitAnswer_resume (state w) c outcome);
         pending := remove_nth k (pending w);
         alerts := (alerts w ++ snd (handleSubmitAnswer_resume (state w) c outcome))%list |}.
Proof.
  intros I N.
  assert (Frame : forall s',
            isLoading s' = isLoading (state w) ->
            questions s' = questions (state w) ->
            pdfContent s' = pdfContent (state w) ->
            isPdfUploaded s' = isPdfUploaded (state w) ->
            userAnswers s' = userAnswers (state w) ->
            numeric_results (evaluationResults s') ->
            0 <= score s' ->
            forall shown, Inv {| state := s'; pending := remove_nth k (pending w);
                                 alerts := shown |}).
  { intros s' Lo Q P U A R S shown.
    apply (Inv_frame w _ I); cbn [state pending]; auto.
    - apply (loader_state_same w); auto; [| apply (inv_loader w I)].
      apply (settle_evaluation w k c N).
    - apply (answers_follow_same (state w)); auto. apply (inv_answers w I).
    - apply closures_remove. apply (inv_closures w I). }
  pose proof (inv_results w I) as R. pose proof (inv_score w I) as S.
  pose proof (inv_closures w I c (nth_error_In _ _ N)) as C.
  unfold handleSubmitAnswer_resume, submit_try.
  destruct outcome as [msg | evaluation]; cbn [fst snd submit_catch].
  - apply Frame; auto.
  - destruct (Js.is_number (optional_score evaluation)) eqn:Number; cbn [negb].
    + destruct (Js.is_one (optional_score evaluation)); cbn [fst snd];
        apply Frame; try reflexivity; cbn;
        try (apply numeric_results_set; assumption); lia.
    + cbn [fst snd submit_catch]. apply Frame; auto.
Qed.

Lemma Inv_reader_settled (w : World) (k : nat) (buffer : list byte) :
  Inv w -> nth_error (pending w) k = Some ReadingBuffer ->
  forall w', settle w k (BufferLoaded buffer) = Some w' -> Inv w'.
Proof.
  intros I N w' Settle_. unfold settle in Settle_. rewrite N in Settle_.
  destruct (settle_loader w k _ (inv_loader w I) N eq_refl) as [L Others].
  pose proof (inv_loader w I) as Reading. unfold loader_state in Reading.
  rewrite L in Reading.
  destruct (reader_onload_cases (state w) buffer) as [[_ E] | [_ E]];
    rewrite E in Settle_; inversion Settle_; subst w'.
  - apply (Inv_frame w _ I); cbn [state pending]; try reflexivity.
    + unfold loader_state. cbn [state pending]. rewrite loaders_app, Others.
      exact Reading.
    + apply (inv_answers w I).
    + apply (inv_results w I).
    + apply closures_app; [apply closures_remove, (inv_closures w I) | discriminate].
    + apply (inv_score w I).
  - apply Inv_cleared; auto. intros c. apply In_remove_nth.
Qed.

Lemma Inv_text_settled (w : World) (k : nat) (content : string) :
  Inv w -> nth_error (pending w) k = Some ReadingText ->
  Inv {| state := textReader_onload (state w) content;
         pending := remove_nth k (pending w); alerts := alerts w |}.
Proof.
  intros I N.
  destruct (settle_loader w k _ (inv_loader w I) N eq_refl) as [L Others].
  pose proof (inv_loader w I) as Reading. unfold loader_state in Reading.
  rewrite L in Reading. destruct Reading as (_ & NoQuestions & _).
  constructor; cbn [state pending].
  - unfold loader_state. cbn [state pending]. rewrite Others. reflexivity.
  - cbn. split; [discriminate | reflexivity].
  - cbn. congruence.
  - apply (answers_follow_same (state w)); try reflexivity. apply (inv_answers w I).
  - apply (inv_results w I).
  - apply closures_remove, (inv_closures w I).
  - apply (inv_score w I).
Qed.

Lemma answers_follow_fill (s : State) (q : Question) (qs : list Question) :
  questions s = Some (q :: qs) ->
  userAnswers s = Js.fill (List.length (q :: qs)) "" ->
  answers_follow_questions s.
Proof.
  intros Q A. unfold answers_follow_questions. rewrite Q, A. split.
  - unfold Js.fill. apply repeat_length.
  - intros i q' N. exists "". split; [| left; reflexivity].
    apply get_fill. apply nth_error_Some. congruence.
Qed.

Lemma Inv_generated (w : World) (k : nat) (input : GenerateInput)
    (outcome : GenerateOutcome) :
  Inv w -> nth_error (pending w) k = Some (Generating input) ->
  Inv {| state := fst (handleGenerateQuestions_resume (state w) outcome);
         pending := remove_nth k (pending w);
         alerts := (alerts w ++ snd (handleGenerateQuestions_resume (state w) outcome))%list |}.
Proof.
  intros I N.
  destruct (settle_loader w k _ (inv_loader w I) N eq_refl) as [L Others].
  pose proof (inv_loader w I) as Busy. unfold loader_state in Busy.
  rewrite L in Busy. destruct Busy as (_ & NoQuestions & Content & Up & _).
  pose proof (inv_answers w I) as A. unfold answers_follow_questions in A.
  rewrite NoQuestions in A.
  assert (Failure : forall shown,
            Inv {| state := setIsLoading false (setQuestions None (state w));
                   pending := remove_nth k (pending w); alerts := shown |}).
  { intros shown. constructor; cbn [state pending].
    - unfold loader_state. cbn [state pending]. rewrite Others. reflexivity.
    - apply (inv_uploaded w I).
    - cbn. congruence.
    - unfold answers_follow_questions. cbn. exact A.
    - apply (inv_results w I).
    - apply closures_remove, (inv_closures w I).
    - apply (inv_score w I). }
  unfold handleGenerateQuestions_resume.
  destruct outcome as [msg | [[[| q qs] |] |]];
    cbn [generate_try generate_catch fst snd]; try apply Failure.
  constructor; cbn [state pending].
  - unfold loader_state. cbn [state pending]. rewrite Others. reflexivity.
  - apply (inv_uploaded w I).
  - intros _. split; [exact Content | exact Up].
  - apply (answers_follow_fill _ q qs); reflexivity.
  - apply numeric_results_fill.
  - apply closures_remove, (inv_closures w I).
  - cbn. lia.
Qed.

(** Every event keeps the invariant. *)
Lemma step_Inv (w w' : World) (e : Event) :
  Inv w -> step w e = Some w' -> Inv w'.
Proof.
  intros I Step. destruct e as [path | value | | | | i v | i | k r]; cbn in Step.
  - unfold Ui.file_input_disabled in Step.
    destruct (isLoading (state w)) eqn:Idle; inversion Step; subst.
    apply Inv_ChooseFile; assumption.
  - destruct (Ui.count_input_disabled (state w)); inversion Step; subst.
    apply (Inv_frame w _ I); cbn [state pending]; try reflexivity.
    + apply (loader_state_same w); try reflexivity. apply (inv_loader w I).
    + apply (answers_follow_same (state w)); try reflexivity.
      apply (inv_answers w I).
    + apply (inv_results w I).
    + apply (inv_closures w I).
    + apply (inv_score w I).
  - destruct (Ui.generate_disabled (state w)) eqn:Enabled; [discriminate |].
    pose proof (Inv_ClickGenerate w I Enabled) as I'.
    destruct (handleGenerateQuestions_start (state w)) as [s' input].
    inversion Step; subst. exact I'.
  - destruct (Ui.clear_enabled (state w)) eqn:Enabled; inversion Step; subst.
    apply Inv_cleared; auto. apply (loader_state_idle w (inv_loader w I)).
    unfold Ui.clear_enabled in Enabled. apply andb_true_iff in Enabled.
    destruct Enabled as [_ Idle]. apply negb_true_iff in Idle. exact Idle.
  - destruct (Ui.summary_shown (state w)) eqn:Shown; inversion Step; subst.
    apply Inv_cleared; auto. apply (loader_state_questions w (inv_loader w I)).
    unfold Ui.summary_shown in Shown.
    destruct (questions (state w)); [discriminate | discriminate Shown].
  - destruct (Ui.radio_enabled (state w) i v) eqn:Enabled; inversion Step; subst.
    unfold selectAnswer. rewrite Enabled. apply Inv_SelectOption; assumption.
  - destruct (Ui.submit_enabled (state w) i); [| discriminate].
    pose proof (Inv_ClickSubmit w i I) as I'.
    destruct (handleSubmitAnswer_start (state w) i) as [s' closure].
    inversion Step; subst. exact I'.
  - destruct (nth_error (pending w) k) as [[| | input | c] |] eqn:N;
      destruct r as [buffer | | content | | outcome | outcome];
      try (unfold settle in Step; rewrite N in Step; discriminate Step).
    + eapply Inv_reader_settled; eauto.
    + unfold settle in Step. rewrite N in Step. cbn in Step.
      inversion Step; subst.
      destruct (settle_loader w k _ (inv_loader w I) N eq_refl) as [_ Others].
      apply Inv_cleared; auto. intros c. apply In_remove_nth.
    + unfold settle in Step. rewrite N in Step. inversion Step; subst.
      apply Inv_text_settled; assumption.
    + unfold settle in Step. rewrite N in Step. cbn in Step.
      inversion Step; subst.
      destruct (settle_loader w k _ (inv_loader w I) N eq_refl) as [_ Others].
      apply Inv_cleared; auto. intros c. apply In_remove_nth.
    + pose proof (Inv_generated w k input outcome I N) as I'.
      unfold settle in Step. rewrite N in Step.
      destruct (handleGenerateQuestions_resume (state w) outcome) as [s' shown].
      inversion Step; subst. exact I'.
    + pose proof (Inv_evaluated w k c outcome I N) as I'.
      unfold settle in Step. rewrite N in Step.
      destruct (handleSubmitAnswer_resume (state w) c outcome) as [s' shown].
      inversion Step; subst. exact I'.
Qed.

Lemma run_Inv (events : list Event) (w w' : World) :
  Inv w -> run w events = Some w' -> Inv w'.
Proof.
  revert w. induction events as [| e events IH]; intros w I Run; cbn in Run.
  - inversion Run; subst. exact I.
  - destruct (step w e) as [w1 |] eqn:Step; [| discriminate].
    apply (IH w1); [eapply step_Inv; eauto | exact Run].
Qed.

(** ** What holds in every session that can be reached

    The updates of one synchronous stretch of a handler, or of one
    resumption, take effect together: no render falls between them. *)

Lemma loading_no_questions (w : World) :
  Inv w -> isLoading (state w) = true -> questions (state w) = None.
Proof.
  intros I Busy. destruct (questions (state w)) eqn:Q; [| reflexivity].
  assert (L : loaders (pending w) = []).
  { apply (loader_state_questions w (inv_loader w I)). congruence. }
  pose proof (inv_loader w I) as State. unfold loader_state in State.
  rewrite L in State. congruence.
Qed.

(** At most one file read or generation is in flight at any time, and
    [isLoading] is true exactly while there is one; as long as it is, the
    session has no questions. *)
Theorem one_load_in_flight (events : list Event) (w : World) :
  run initialWorld events = Some w ->
  (List.length (loaders (pending w)) <= 1)%nat
  /\ (isLoading (state w) = true <-> loaders (pending w) <> [])
  /\ (isLoading (state w) = true -> questions (state w) = None).
Proof.
  intros Run. pose proof (inv_loader w (run_Inv _ _ _ Inv_initial Run)) as L.
  unfold loader_state in L.
  destruct (loaders (pending w)) as [| [| | input | c] [| p l]];
    try contradiction; cbn [List.length]; (split; [lia |]).
  - split; [split; intros H; congruence | congruence].
  - destruct L as (Busy & NoQuestions & _).
    split; [split; [discriminate | auto] | auto].
  - destruct L as (Busy & NoQuestions & _).
    split; [split; [discriminate | auto] | auto].
  - destruct L as (Busy & NoQuestions & _).
    split; [split; [discriminate | auto] | auto].
Qed.

Lemma one_load_in_flight_witness :
  (List.length (loaders [Evaluating firstClosure; ReadingBuffer]) <= 1)%nat.
Proof.
  apply (one_load_in_flight
           (openQuiz ++ [SelectOption 0 "2"; ClickSubmit 0; ClickClear;
                         ChooseFile "other.pdf"])
           {| state := handleFileUpload
                         (setFileInputValue "other.pdf"
                            (handleClear (setQuestionCount 2 firstSubmitted)));
              pending := [Evaluating firstClosure; ReadingBuffer];
              alerts := [] |}).
  vm_compute. reflexivity.
Defined.

(** The generate button never reads "Generating...": whenever the session
    is loading it has no questions, so the label is "Reading PDF...", also
    while questions are being generated. *)
Theorem generating_label_never_shown (events : list Event) (w : World) :
  run initialWorld events = Some w ->
  View.generate_label (state w) <> "Generating..."
  /\ (isLoading (state w) = true ->
      View.generate_label (state w) = "Reading PDF...").
Proof.
  intros Run. pose proof (loading_no_questions w (run_Inv _ _ _ Inv_initial Run))
    as NoQuestions.
  unfold View.generate_label.
  destruct (isLoading (state w)).
  - rewrite (NoQuestions eq_refl). cbn. split; [discriminate | reflexivity].
  - cbn. split; [discriminate | discriminate].
Qed.

Lemma generating_label_never_shown_witness :
  View.generate_label
    (fst (handleGenerateQuestions_start
            (setFileInputValue "notes.pdf" (setQuestionCount 2 fileReady))))
  = "Reading PDF...".
Proof.
  apply (generating_label_never_shown
           (firstn 5 openQuiz)
           {| state := fst (handleGenerateQuestions_start
                              (setFileInputValue "notes.pdf"
                                 (setQuestionCount 2 fileReady)));
              pending := [Generating {| gen_pdfContent := "%PDF-1.4 text";
                                        gen_questionCount := 2 |}];
              alerts := [] |}).
  - vm_compute. reflexivity.
  - reflexivity.
Defined.

(** The uploaded flag is set exactly when a content is stored, and
    whenever the session has questions it still has the non-empty content
    they were generated from. *)
Theorem questions_keep_their_content (events : list Event) (w : World) :
  run initialWorld events = Some w ->
  (isPdfUploaded (state w) = true <-> pdfContent (state w) <> None)
  /\ (questions (state w) <> None ->
      isPdfUploaded (state w) = true
      /\ exists c content, pdfContent (state w) = Some (String c content)).
Proof.
  intros Run. pose proof (run_Inv _ _ _ Inv_initial Run) as I.
  split; [apply (inv_uploaded w I) |].
  intros Q. destruct (inv_content w I Q) as [Content Up]. split; [exact Up |].
  unfold truthy in Content.
  destruct (pdfContent (state w)) as [[| c content] |]; try discriminate Content.
  eauto.
Qed.

Lemma questions_keep_their_content_witness :
  isPdfUploaded lateState = true
  /\ exists c content, pdfContent lateState = Some (String c content).
Proof.
  apply (questions_keep_their_content lateAnswer
           {| state := lateState; pending := []; alerts := [] |}).
  - vm_compute. reflexivity.
  - discriminate.
Defined.

(** Whatever the order in which reads, generations and evaluations
    return: without questions there are no answers, and with questions
    [userAnswers] has exactly one slot per question, each holding the
    empty string or one of the options of its question. *)
Theorem answers_always_follow_questions (events : list Event) (w : World) :
  run initialWorld events = Some w ->
  (questions (state w) = None -> userAnswers (state w) = [])
  /\ (forall qs, questions (state w) = Some qs ->
        List.length (userAnswers (state w)) = List.length qs
        /\ forall i q, nth_error qs i = Some q ->
             exists v, Js.get (userAnswers (state w)) i = Some v
                       /\ (v = "" \/ In v (options_of q))).
Proof.
  intros Run. pose proof (inv_answers w (run_Inv _ _ _ Inv_initial Run)) as A.
  unfold answers_follow_questions in A.
  destruct (questions (state w)) as [qs |].
  - split; [discriminate |]. intros qs' E. inversion E; subst. exact A.
  - split; [auto | discriminate].
Qed.

Lemma answers_always_follow_questions_witness :
  List.length (userAnswers lateState) = 1%nat.
Proof.
  apply (proj2 (answers_always_follow_questions lateAnswer
                  {| state := lateState; pending := []; alerts := [] |}
                  ltac:(vm_compute; reflexivity)) [q2]).
  reflexivity.
Defined.

(** A submit button that can be pressed always starts an evaluation: the
    preconditions of [handleSubmitAnswer] hold, so the silent return is
    never taken.  The request is for the question of that card, with its
    text and stored answer, the present content, and as the user's answer
    one of the options of that question. *)
Theorem enabled_submit_starts_evaluation (events : list Event) (w : World) (i : nat) :
  run initialWorld events = Some w ->
  Ui.submit_enabled (state w) i = true ->
  exists c q,
    step w (ClickSubmit i)
    = Some {| state := setIsEvaluating (Js.set (isEvaluating (state w)) i true) (state w);
              pending := (pending w ++ [Evaluating c])%list;
              alerts := alerts w |}
    /\ Ui.card (state w) i = Some q
    /\ closure_index c = i
    /\ ev_question (closure_input c) = question q
    /\ ev_correctAnswer (closure_input c) = answer q
    /\ In (ev_userAnswer (closure_input c)) (options_of q)
    /\ Some (ev_pdfContent (closure_input c)) = pdfContent (state w).
Proof.
  intros Run Enabled. pose proof (run_Inv _ _ _ Inv_initial Run) as I.
  pose proof Enabled as Pressed.
  destruct (handleSubmitAnswer_start_cases (state w) i) as (Skip & _ & Started).
  unfold Ui.submit_enabled in Enabled.
  destruct (Ui.card (state w) i) as [q |] eqn:Card; [| discriminate].
  apply negb_true_iff in Enabled. unfold Ui.submit_disabled in Enabled.
  rewrite !orb_false_iff in Enabled. destruct Enabled as [[[Answered _] _] _].
  assert (Q : questions (state w) <> None).
  { unfold Ui.card in Card. destruct (questions (state w)); congruence. }
  destruct (inv_content w I Q) as [Content _]. unfold truthy in Content.
  destruct (snd (handleSubmitAnswer_start (state w) i)) as [c |] eqn:Snd.
  - destruct (Started c eq_refl) as (S1 & Index & _ & _ & P & A & q' & Card' & Text & Correct).
    assert (q' = q) by congruence. subst q'.
    exists c, q. repeat split; auto.
    + cbn [step]. rewrite Pressed.
      destruct (handleSubmitAnswer_start (state w) i) as [s' closure].
      cbn [fst snd] in *. subst. reflexivity.
    + pose proof (inv_answers w I) as Follow. unfold answers_follow_questions in Follow.
      unfold Ui.card in Card. destruct (questions (state w)) as [qs |]; [| discriminate].
      destruct Follow as [_ Each]. destruct (Each i q Card) as (v & G & [Empty | Offered]).
      * subst v. rewrite G in Answered. discriminate Answered.
      * rewrite G in A. inversion A. congruence.
  - exfalso. destruct (proj1 Skip eq_refl) as [F | [F | F]]; congruence.
Qed.

Lemma enabled_submit_starts_evaluation_witness :
  exists c, In (ev_userAnswer (closure_input c)) ["1"; "2"; "3"; "4"]
            /\ ev_question (closure_input c) = "What is 1 + 1?".
Proof.
  destruct (enabled_submit_starts_evaluation
              (openQuiz ++ [SelectOption 0 "2"])
              {| state := setFileInputValue "notes.pdf"
                            (setQuestionCount 2 (selectAnswer quizReady 0 "2"));
                 pending := []; alerts := [] |} 0
              ltac:(vm_compute; reflexivity) ltac:(vm_compute; reflexivity))
    as (c & q & _ & Card & _ & Text & _ & Offered & _).
  vm_compute in Card. inversion Card; subst q.
  exists c. split; [exact Offered | exact Text].
Defined.

(** The condition of the first error box cannot hold in any state: a
    score that is not of type number is not NaN either. *)
Lemma error_nan_unsatisfiable (s : State) (i : nat) :
  View.error_nan_shown s i = false.
Proof.
  unfold View.error_nan_shown. destruct (View.result_score s i) as [[| | | q | t] |];
    reflexivity.
Qed.

(** Every result that the session holds has a numeric score, whatever the
    evaluator sent and in whatever order the evaluations returned; so
    neither error box of a question card is ever rendered, and the result
    box is rendered exactly for the indices that hold a result. *)
Theorem stored_results_are_numeric (events : list Event) (w : World) (i : nat) :
  run initialWorld events = Some w ->
  (forall e, Js.get (evaluationResults (state w)) i = Some (Some e) ->
             Js.is_number (evaluation_score e) = true)
  /\ View.error_nan_shown (state w) i = false
  /\ View.error_other_shown (state w) i = false
  /\ (View.result_shown (state w) i = true <-> has_result (state w) i).
Proof.
  intros Run. pose proof (inv_results w (run_Inv _ _ _ Inv_initial Run)) as R.
  split; [intros e G; exact (R i e G) |].
  split; [apply error_nan_unsatisfiable |].
  unfold View.error_other_shown, View.result_shown, View.result_score, has_result.
  destruct (Js.get (evaluationResults (state w)) i) as [[e |] |] eqn:G.
  - rewrite (R i e G). split; [reflexivity |]. split; eauto.
  - split; [reflexivity |]. split; [discriminate | intros [r E]; discriminate E].
  - split; [reflexivity |]. split; [discriminate | intros [r E]; discriminate E].
Qed.

Lemma stored_results_are_numeric_witness :
  View.error_other_shown
    (fst (handleSubmitAnswer_resume
            (setFileInputValue "notes.pdf" (setQuestionCount 2 firstSubmitted))
            firstClosure malformed)) 0 = false.
Proof.
  apply (stored_results_are_numeric
           (openQuiz ++ [SelectOption 0 "2"; ClickSubmit 0; Settle 0 (Evaluated malformed)])
           {| state := fst (handleSubmitAnswer_resume
                              (setFileInputValue "notes.pdf"
                                 (setQuestionCount 2 firstSubmitted))
                              firstClosure malformed);
              pending := [];
              alerts := ["Failed to evaluate answer: Invalid evaluation response received: . Please check the console for details."] |}
           0).
  vm_compute. reflexivity.
Defined.

Lemma step_keeps_aligned_witness :
  aligned (fst (handleSubmitAnswer_resume firstSubmitted firstClosure correct)).
Proof.
  apply (step_keeps_aligned
           {| state := firstSubmitted; pending := [Evaluating firstClosure];
              alerts := [] |}
           {| state := fst (handleSubmitAnswer_resume firstSubmitted firstClosure correct);
              pending := []; alerts := [] |}
           (Settle 0 (Evaluated correct))).
  - reflexivity.
  - intros k c outcome E N. inversion E; subst k outcome.
    cbn in N. inversion N; subst c.
    intros qs Q. cbn in Q. inversion Q; subst qs. cbn. repeat split; lia.
  - cbv. auto.
Defined.

Lemma generation_success_initialises_witness :
  Js.get (userAnswers quizReady) 1 = Some ""
  /\ Js.get (evaluationResults quizReady) 1 = Some None
  /\ Js.get (isEvaluating quizReady) 1 = Some false
  /\ Ui.submit_enabled quizReady 1 = false.
Proof.
  destruct (generation_success_initialises
              (fst (handleGenerateQuestions_start fileReady)) q0 [q1])
    as (_ & _ & _ & _ & _ & _ & _ & _ & Each & _).
  apply (Each 1%nat). cbn. lia.
Defined.

Lemma in_range_app (ps : list Pending) (p : Pending) :
  (forall input, In (Generating input) ps ->
     1 <= gen_questionCount input <= 20 /\ gen_pdfContent input <> "") ->
  (forall input, p = Generating input ->
     1 <= gen_questionCount input <= 20 /\ gen_pdfContent input <> "") ->
  forall input, In (Generating input) (ps ++ [p])%list ->
    1 <= gen_questionCount input <= 20 /\ gen_pdfContent input <> "".
Proof.
  intros Old New input In_. apply in_app_or in In_.
  destruct In_ as [In_ | [E | []]]; auto.
Qed.

Lemma resume_keeps_count (s : State) (c : SubmitClosure) (outcome : EvaluateOutcome) :
  questionCount (fst (handleSubmitAnswer_resume s c outcome)) = questionCount s.
Proof.
  unfold handleSubmitAnswer_resume, submit_try.
  destruct outcome as [msg | evaluation]; [reflexivity |].
  destruct (Js.is_number (optional_score evaluation)); [| reflexivity].
  destruct (Js.is_one (optional_score evaluation)); reflexivity.
Qed.

Lemma generated_keeps_count (s : State) (outcome : GenerateOutcome) :
  questionCount (fst (handleGenerateQuestions_resume s outcome)) = questionCount s.
Proof.
  unfold handleGenerateQuestions_resume.
  destruct outcome as [msg | [[[| q qs] |] |]]; reflexivity.
Qed.

Lemma step_requests_in_range (w w' : World) (e : Event) :
  requests_in_range w -> step w e = Some w' -> requests_in_range w'.
Proof.
  unfold requests_in_range. intros [Count Requests] Step.
  destruct e as [path | value | | | | i v | i | k r]; cbn in Step.
  - destruct (Ui.file_input_disabled (state w)); inversion Step; subst; cbn.
    split; [exact Count |]. apply in_range_app; [exact Requests | discriminate].
  - destruct (Ui.count_input_disabled (state w)); inversion Step; subst; cbn.
    split; [apply clamp_range | exact Requests].
  - destruct (Ui.generate_disabled (state w)); [discriminate |].
    unfold handleGenerateQuestions_start in Step.
    destruct (pdfContent (state w)) as [[| c content] |];
      inversion Step; subst; cbn; try (split; assumption).
    split; [exact Count |]. apply in_range_app; [exact Requests |].
    intros input E. inversion E; subst. cbn. split; [exact Count | discriminate].
  - destruct (Ui.clear_enabled (state w)); inversion Step; subst; cbn.
    split; assumption.
  - destruct (Ui.summary_shown (state w)); inversion Step; subst; cbn.
    split; assumption.
  - destruct (Ui.radio_enabled (state w) i v) eqn:En; inversion Step; subst; cbn.
    unfold selectAnswer. rewrite En. cbn. split; assumption.
  - destruct (Ui.submit_enabled (state w) i); [| discriminate].
    destruct (handleSubmitAnswer_start_cases (state w) i) as (_ & Skip & Started).
    destruct (handleSubmitAnswer_start (state w) i) as [s' [c |]];
      inversion Step; subst; cbn [state pending].
    + destruct (Started c eq_refl) as (S1 & _). cbn [fst] in S1. subst s'.
      split; [exact Count |]. apply in_range_app; [exact Requests | discriminate].
    + specialize (Skip eq_refl). cbn [fst] in Skip. subst s'. split; assumption.
  - assert (Others : forall input, In (Generating input) (remove_nth k (pending w)) ->
                       1 <= gen_questionCount input <= 20 /\ gen_pdfContent input <> "")
      by (intros input In_; apply Requests; eapply In_remove_nth; eauto).
    unfold settle in Step.
    destruct (nth_error (pending w) k) as [[| | input | c] |];
      destruct r as [buffer | | content | | outcome | outcome]; try discriminate Step.
    + destruct (reader_onload_cases (state w) buffer) as [[_ E] | [_ E]];
        rewrite E in Step; inversion Step; subst; cbn [state pending].
      * split; [exact Count |]. apply in_range_app; [exact Others | discriminate].
      * split; [exact Count | exact Others].
    + cbn in Step. inversion Step; subst. split; [exact Count | exact Others].
    + inversion Step; subst. split; [exact Count | exact Others].
    + cbn in Step. inversion Step; subst. split; [exact Count | exact Others].
    + pose proof (generated_keeps_count (state w) outcome) as Same.
      destruct (handleGenerateQuestions_resume (state w) outcome) as [s' shown].
      inversion Step; subst. cbn [state pending fst] in *.
      rewrite Same. split; [exact Count | exact Others].
    + pose proof (resume_keeps_count (state w) c outcome) as Same.
      destruct (handleSubmitAnswer_resume (state w) c outcome) as [s' shown].
      inversion Step; subst. cbn [state pending fst] in *.
      rewrite Same. split; [exact Count | exact Others].
Qed.

(** In every session that can be reached the question count lies
    between 1 and 20, and every request made to the generator asks for a
    number of questions in that range, from a content that is not
    empty. *)
Theorem generator_requests_in_range (events : list Event) (w : World) :
  run initialWorld events = Some w ->
  1 <= questionCount (state w) <= 20
  /\ forall input, In (Generating input) (pending w) ->
       1 <= gen_questionCount input <= 20 /\ gen_pdfContent input <> "".
Proof.
  assert (Start : requests_in_range initialWorld).
  { split; [cbn; lia | intros input []]. }
  revert Start. generalize initialWorld.
  induction events as [| e events IH]; intros w0 Start Run; cbn in Run.
  - inversion Run; subst. exact Start.
  - destruct (step w0 e) as [w1 |] eqn:Step; [| discriminate].
    apply (IH w1); [eapply step_requests_in_range; eauto | exact Run].
Qed.

Lemma generator_requests_in_range_witness :
  1 <= questionCount lateState <= 20.
Proof.
  apply (generator_requests_in_range lateAnswer
           {| state := lateState; pending := []; alerts := [] |}).
  vm_compute. reflexivity.
Defined.

(** While the session is loading every control is disabled or absent:
    the only events that can happen are returns of computations in
    flight. *)
Theorem loading_blocks_controls (events : list Event) (w w' : World) (e : Event) :
  run initialWorld events = Some w ->
  isLoading (state w) = true ->
  step w e = Some w' ->
  exists k r, e = Settle k r.
Proof.
  intros Run Busy Step.
  pose proof (loading_no_questions w (run_Inv _ _ _ Inv_initial Run) Busy) as Q.
  destruct e as [path | value | | | | i v | i | k r]; cbn in Step.
  - unfold Ui.file_input_disabled in Step. rewrite Busy in Step. discriminate.
  - unfold Ui.count_input_disabled in Step. rewrite Busy in Step. discriminate.
  - unfold Ui.generate_disabled in Step. rewrite Busy, orb_true_r in Step.
    discriminate.
  - unfold Ui.clear_enabled in Step. rewrite Busy, andb_false_r in Step.
    discriminate.
  - unfold Ui.summary_shown in Step. rewrite Q in Step. discriminate.
  - unfold Ui.radio_enabled, Ui.card in Step. rewrite Q in Step. discriminate.
  - unfold Ui.submit_enabled, Ui.card in Step. rewrite Q in Step. discriminate.
  - eauto.
Qed.

Lemma loading_blocks_controls_witness :
  exists k r, Settle 0 (BufferLoaded pdfBytes) = Settle k r.
Proof.
  apply (loading_blocks_controls
           [ChooseFile "notes.pdf"]
           {| state := handleFileUpload (setFileInputValue "notes.pdf" initialState);
              pending := [ReadingBuffer]; alerts := [] |}
           {| state := handleFileUpload (setFileInputValue "notes.pdf" initialState);
              pending := [ReadingText]; alerts := [] |}).
  - reflexivity.
  - reflexivity.
  - vm_compute. reflexivity.
Defined.
